(** * The SMBFS volume driver: share placement and capacity inspection

    A shallow embedding of [cinder/volume/drivers/smbfs.py] (class
    [SmbfsDriver]) and the properties of its share selector, its eligibility
    predicate, its capacity inspector, its setup validation and its
    volume-creation dispatch.

    Conventions of the embedding:
    - a Python [float] is a primitive binary64 float; Python raises
      [ZeroDivisionError] on a zero divisor where IEEE would give an infinity
      or a NaN, which [py_div] writes out;
    - a Python [int] is a [Z]; comparing a float with an int is exact, as in
      CPython ([float_le_int]);
    - [self] and the chronological list of observable events (log records,
      commands run, mounts requested) form the state threaded through every
      method; an exception is the [Raise] result;
    - what the driver calls but does not define (the [float] builtin,
      [os.path.exists], [putils.execute], the remotefs client) is the
      [Host]; the methods inherited from [nfs.RemoteFsDriver] are the
      [RemoteFsDriver] record. *)

From Stdlib Require Import ZArith Ascii String DecimalString Floats.
From Stdlib Require DecimalZ DecimalPos.
From stdpp Require Import gmap strings list.

Local Open Scope string_scope.
Local Open Scope Z_scope.

(** ** Python values and builtins *)

Module Py.

(** Modelled from the spec: [units.GiB], the bytes of one GiB, which
    [cinder/units.py] defines outside the driver: the requested size in
    bytes is the size in GiB times 2^30. *)
Definition GiB : Z := 1024 ^ 3.

(** ASCII whitespace, as [str.isspace] sees it on a byte string. *)
Definition isspace (c : ascii) : bool :=
  let n := nat_of_ascii c in
  Nat.eqb n 32 || (Nat.leb 9 n && Nat.leb n 13).

Definition flush (cur : string) (k : list string) : list string :=
  match cur with
  | EmptyString => k
  | _ => cur :: k
  end.

(** [s.split()]: the maximal runs of non-whitespace characters, in order. *)
Fixpoint split_from (cur : string) (s : string) : list string :=
  match s with
  | EmptyString => flush cur []
  | String c s' =>
      if isspace c then flush cur (split_from EmptyString s')
      else split_from (cur +:+ String c EmptyString) s'
  end.

Definition split (s : string) : list string := split_from EmptyString s.

(** [max(0, x)]: [max] keeps its first argument unless a later one compares
    strictly greater, so a NaN or a negative [x] gives [0]. The integer [0]
    Python returns then behaves as the float [0] in the subtraction and in
    the exact comparison that follow. *)
Definition max0 (x : float) : float :=
  if (0 <? x)%float then x else 0%float.

(** The exact order of a float against an integer: [None] for a NaN. *)
Definition SFcompare_Z (f : spec_float) (z : Z) : option comparison :=
  match f with
  | S754_nan => None
  | S754_zero _ => Some (0 ?= z)
  | S754_infinity s => Some (if s then Lt else Gt)
  | S754_finite s m e =>
      let v := if s then Z.neg m else Z.pos m in
      Some (if 0 <=? e then v * 2 ^ e ?= z else v ?= z * 2 ^ (- e))
  end.

(** [f <= z] for a float [f] and an int [z]. *)
Definition float_le_int (f : float) (z : Z) : bool :=
  match SFcompare_Z (Prim2SF f) z with
  | Some Lt | Some Eq => true
  | _ => false
  end.

(** [f > z] for a float [f] and an int [z]. *)
Definition float_gt_int (f : float) (z : Z) : bool :=
  match SFcompare_Z (Prim2SF f) z with
  | Some Gt => true
  | _ => false
  end.

End Py.

(** ** Exceptions, events and the state *)

Inductive py_value :=
| PyStr (s : string)
| PyFloat (f : float)
| PyDict (d : gmap string (option string)).

(** A format string applied with [%] to its arguments. *)
Record message := Msg { fmt : string; args : list py_value }.

Inductive exn :=
| SmbfsException (msg : message)
| SmbfsNoSharesMounted
| SmbfsNoSuitableShareFound (volume_size : Z)
| InvalidVolume (reason : message)
| NameError (name : string)
| ZeroDivisionError
| ValueError
| IndexError
| ProcessExecutionError (cmd : list string).

Inductive result (A : Type) :=
| Ok (a : A)
| Raise (e : exn).
Arguments Ok {A} a.
Arguments Raise {A} e.

Inductive level := DEBUG | WARN | ERROR.

Inductive event :=
| Log (l : level) (m : message)
| Execute (cmd : list string) (run_as_root : bool)
| Mount (share : string) (flags : list string).

Record Configuration := {
  smbfs_shares_config : option string;
  smbfs_sparsed_volumes : bool;
  smbfs_used_ratio : float;
  smbfs_oversub_ratio : float;
  smbfs_mount_point_base : string;
  smbfs_qcow2_volumes : bool;
  smbfs_mount_options : option string
}.

(** The fields of [self] the methods below read or write. *)
Record SmbfsDriver := {
  configuration : Configuration;
  shares : gmap string (option string);
  _mounted_shares : list string;
  img_suffix : option string
}.

Record State := { self : SmbfsDriver; trace : list event }.

(** A volume reference, as far as the driver looks into it. *)
Module Volume.
Record volume_type_ref := { type_name : string }.
Record t := {
  name : string;
  size : Z;
  provider_location : option string;
  volume_type : option volume_type_ref
}.
End Volume.

(** What the driver calls and does not define. The host is observed at one
    instant: the answers do not change during one driver call. *)
Record Host := {
  (** the builtin [float] on a string: [None] is [ValueError] *)
  py_float : string -> option float;
  (** [os.path.exists] *)
  path_exists : string -> bool;
  (** [putils.execute]: the pair (stdout, stderr), or an exception *)
  execute : list string -> bool -> result (string * string);
  (** [RemoteFsClient.get_mount_point] *)
  get_mount_point : string -> string;
  (** the outcome of [RemoteFsClient.mount] *)
  client_mount : string -> list string -> result unit
}.

(** ** The monad of driver methods *)

Definition M (A : Type) : Type := Host -> State -> result A * State.

Definition ret {A} (a : A) : M A := fun _ st => (Ok a, st).

Definition raise {A} (e : exn) : M A := fun _ st => (Raise e, st).

Definition bind {A B} (m : M A) (k : A -> M B) : M B :=
  fun h st =>
    match m h st with
    | (Ok a, st') => k a h st'
    | (Raise e, st') => (Raise e, st')
    end.

Notation "'let*' x ':=' m 'in' k" := (bind m (fun x => k))
  (at level 10, x pattern, m at level 100, k at level 200).
Notation "m ';;' k" := (bind m (fun _ => k))
  (at level 100, k at level 200, right associativity).

Definition get_self : M SmbfsDriver := fun _ st => (Ok (self st), st).

Definition set_self (d : SmbfsDriver) : M unit :=
  fun _ st => (Ok tt, {| self := d; trace := trace st |}).

Definition ask : M Host := fun h st => (Ok h, st).

Definition emit (e : event) : M unit :=
  fun _ st => (Ok tt, {| self := self st; trace := trace st ++ [e] |}).

Definition lift {A} (r : result A) : M A := fun _ st => (r, st).

Definition LOG (l : level) (m : message) : M unit := emit (Log l m).

(** [self._execute]: the command is recorded, then the host answers. *)
Definition _execute (cmd : list string) (run_as_root : bool) : M (string * string) :=
  emit (Execute cmd run_as_root);;
  let* h := ask in
  lift (execute h cmd run_as_root).

(** [float(s)] *)
Definition float_of (s : string) : M float :=
  let* h := ask in
  match py_float h s with
  | Some f => ret f
  | None => raise ValueError
  end.

(** [x / y] on floats *)
Definition py_div (x y : float) : M float :=
  if (y =? 0)%float then raise ZeroDivisionError else ret (x / y)%float.

(** The value a method returns and the state it leaves. *)
Definition eval {A} (m : M A) (h : Host) (st : State) : result A := fst (m h st).
Definition exec {A} (m : M A) (h : Host) (st : State) : State := snd (m h st).

(** ** The driver *)

Module Smbfs.

(** [_get_mount_point_for_share] *)
Definition _get_mount_point_for_share (smbfs_share : string) : M string :=
  let* h := ask in
  ret (get_mount_point h smbfs_share).

(** [map(float, l)]: the first string that is no float raises. *)
Fixpoint map_float (l : list string) : M (list float) :=
  match l with
  | [] => ret []
  | s :: l' =>
      let* f := float_of s in
      let* fs := map_float l' in
      ret (f :: fs)
  end.

(** [_get_capacity_info] *)
Definition _get_capacity_info (smbfs_share : string) : M (float * float * float) :=
  let* mount_point := _get_mount_point_for_share smbfs_share in
  let* (df, _) := _execute ["stat"; "-f"; "-c"; "%S %b %a"; mount_point] true in
  let* fs := map_float (Py.split df) in
  match fs with
  | [block_size; blocks_total; blocks_avail] =>
      let total_available := (block_size * blocks_avail)%float in
      let total_size := (block_size * blocks_total)%float in
      let* (du, _) := _execute ["du"; "-sb"; "--apparent-size"; "--exclude";
                                 "*snapshot*"; mount_point] true in
      match Py.split du with
      | [] => raise IndexError
      | tok :: _ =>
          let* total_allocated := float_of tok in
          ret (total_size, total_available, total_allocated)
      end
  | _ => raise ValueError
  end.

(** [_is_share_eligible] *)
Definition _is_share_eligible (smbfs_share : string) (volume_size_in_gib : Z) : M bool :=
  let* self := get_self in
  let used_ratio := smbfs_used_ratio (configuration self) in
  let oversub_ratio := smbfs_oversub_ratio (configuration self) in
  let requested_volume_size := volume_size_in_gib * Py.GiB in
  let* (total_size, total_available, total_allocated) :=
    _get_capacity_info smbfs_share in
  let apparent_size := Py.max0 (total_size * oversub_ratio) in
  let apparent_available := Py.max0 (apparent_size - total_allocated) in
  let* used := py_div (total_size - total_available) total_size in
  if (used_ratio <? used)%float then
    LOG DEBUG (Msg "%s is above smbfs_used_ratio" [PyStr smbfs_share]);;
    ret false
  else if Py.float_le_int apparent_available requested_volume_size then
    LOG DEBUG (Msg "%s is above smbfs_oversub_ratio" [PyStr smbfs_share]);;
    ret false
  else
    let* reserved := py_div total_allocated total_size in
    if (oversub_ratio <=? reserved)%float then
      LOG DEBUG (Msg "%s reserved space is above smbfs_oversub_ratio"
                     [PyStr smbfs_share]);;
      ret false
    else ret true.

(** The [for] loop of [_find_share], with its two loop variables. *)
Fixpoint _find_share_loop (l : list string) (volume_size_in_gib : Z)
    (target_share : option string) (target_share_reserved : float)
    : M (option string) :=
  match l with
  | [] => ret target_share
  | smbfs_share :: l' =>
      let* eligible := _is_share_eligible smbfs_share volume_size_in_gib in
      if negb eligible then
        _find_share_loop l' volume_size_in_gib target_share target_share_reserved
      else
        let* (total_size, total_available, total_allocated) :=
          _get_capacity_info smbfs_share in
        match target_share with
        | Some _ =>
            if (total_allocated <? target_share_reserved)%float then
              _find_share_loop l' volume_size_in_gib (Some smbfs_share) total_allocated
            else
              _find_share_loop l' volume_size_in_gib target_share target_share_reserved
        | None =>
            _find_share_loop l' volume_size_in_gib (Some smbfs_share) total_allocated
        end
  end.

(** [_find_share] *)
Definition _find_share (volume_size_in_gib : Z) : M string :=
  let* self := get_self in
  match _mounted_shares self with
  | [] => raise SmbfsNoSharesMounted
  | _ :: _ =>
      let* target_share :=
        _find_share_loop (_mounted_shares self) volume_size_in_gib None 0%float in
      match target_share with
      | None => raise (SmbfsNoSuitableShareFound volume_size_in_gib)
      | Some target_share =>
          LOG DEBUG (Msg "Selected %s as target smbfs share." [PyStr target_share]);;
          ret target_share
      end
  end.

(** [_ensure_share_mounted] *)
Definition _ensure_share_mounted (smbfs_share : string) : M unit :=
  let* self := get_self in
  LOG DEBUG (Msg ">>>>%r" [PyDict (shares self)]);;
  LOG DEBUG (Msg ">>>>%r" [PyStr smbfs_share]);;
  let mnt_flags :=
    match shares self !! smbfs_share with
    | Some (Some options) => Py.split options
    | _ => []
    end in
  emit (Mount smbfs_share mnt_flags);;
  let* h := ask in
  lift (client_mount h smbfs_share mnt_flags).

(** The names bound at module level when a method body runs: the imports,
    the module constants and the class. *)
Definition module_globals : list string :=
  ["errno"; "os"; "cfg"; "remotefs"; "exception"; "logging"; "putils";
   "units"; "utils"; "nfs"; "VERSION"; "LOG"; "volume_opts"; "CONF";
   "SmbfsDriver"].

(** Evaluating a bare name that no local scope binds. *)
Definition global_name (n : string) : M unit :=
  if existsb (String.eqb n) module_globals then ret tt else raise (NameError n).

(** [str(n)] for an int *)
Definition str_int (n : Z) : string := NilZero.string_of_int (Z.to_int n).

(** [_create_vpc_file] *)
Definition _create_vpc_file (volume_path : string) (volume_size : Z) : M unit :=
  _execute ["qemu-img"; "create"; "-f"; "vpc"; volume_path;
            str_int (volume_size * Py.GiB)] true;;
  ret tt.

(** The methods [SmbfsDriver] inherits and calls on [self] or [super]. *)
Record RemoteFsDriver := {
  super_do_setup : M unit;
  _ensure_shares_mounted : M unit;
  local_path : Volume.t -> M string;
  _create_qcow2_file : string -> Z -> M unit;
  _create_sparsed_file : string -> Z -> M unit;
  _create_regular_file : string -> Z -> M unit;
  _set_rw_permissions_for_all : string -> M unit
}.

Section Inherited.

Variable base : RemoteFsDriver.

(** [do_setup] *)
Definition do_setup : M unit :=
  super_do_setup base;;
  let* self := get_self in
  let* h := ask in
  let conf := configuration self in
  match smbfs_shares_config conf with
  | None | Some EmptyString =>
      let msg := Msg "There's no SMBFS config file configured (%s)"
                     [PyStr "smbfs_shares_config"] in
      LOG WARN msg;;
      raise (SmbfsException msg)
  | Some config =>
      if negb (path_exists h config) then
        let msg := Msg "SMBFS config file at %(config)s doesn't exist"
                       [PyStr config] in
        LOG WARN msg;;
        raise (SmbfsException msg)
      else if negb (0 <? smbfs_oversub_ratio conf)%float then
        let msg := Msg "SMBFS config 'smbfs_oversub_ratio' invalid.  Must be > 0: %s"
                       [PyFloat (smbfs_oversub_ratio conf)] in
        LOG ERROR msg;;
        raise (SmbfsException msg)
      else if negb (0 <? smbfs_used_ratio conf)%float
              && (smbfs_used_ratio conf <=? 1)%float then
        let msg := Msg "SMBFS config 'smbfs_used_ratio' invalid.  Must be > 0 and <= 1.0: %s"
                       [PyFloat (smbfs_used_ratio conf)] in
        LOG ERROR msg;;
        raise (SmbfsException msg)
      else
        set_self {| configuration := conf;
                    shares := ∅;
                    _mounted_shares := _mounted_shares self;
                    img_suffix := img_suffix self |};;
        _ensure_shares_mounted base
  end.

(** [delete_volume] *)
Definition delete_volume (volume : Volume.t) : M unit :=
  match Volume.provider_location volume with
  | None | Some EmptyString =>
      LOG WARN (Msg "Volume %s does not have provider_location specified, skipping"
                    [PyStr (Volume.name volume)]);;
      ret tt
  | Some location =>
      _ensure_share_mounted location;;
      let* mounted_path := local_path base volume in
      _execute ["rm"; "-f"; mounted_path] true;;
      ret tt
  end.

(** [_do_create_volume] *)
Definition _do_create_volume (volume : Volume.t) : M unit :=
  let* volume_path := local_path base volume in
  let volume_size := Volume.size volume in
  LOG DEBUG (Msg "creating new volume at %s" [PyStr volume_path]);;
  let* h := ask in
  if path_exists h volume_path then
    let msg := Msg "file already exists at %s" [PyStr volume_path] in
    LOG ERROR msg;;
    raise (InvalidVolume msg)
  else
    match Volume.volume_type volume with
    | Some volume_type =>
        if existsb (String.eqb (Volume.type_name volume_type)) ["vpc"; "vhd"; "vhdx"]
        then _create_vpc_file volume_path volume_size
        else
          global_name "SmbfsException";;
          raise (SmbfsException (Msg "Invalid volume type" []))
    | None =>
        let* self := get_self in
        set_self {| configuration := configuration self;
                    shares := shares self;
                    _mounted_shares := _mounted_shares self;
                    img_suffix := None |};;
        if smbfs_qcow2_volumes (configuration self) then
          _create_qcow2_file base volume_path volume_size
        else if smbfs_sparsed_volumes (configuration self) then
          _create_sparsed_file base volume_path volume_size
        else
          _create_regular_file base volume_path volume_size
    end;;
    _set_rw_permissions_for_all base volume_path.

End Inherited.

End Smbfs.

(** ** Observations used in the statements *)

Definition SFis_nan (f : spec_float) : bool :=
  match f with
  | S754_nan => true
  | _ => false
  end.

Definition SFis_finite (f : spec_float) : bool :=
  match f with
  | S754_zero _ | S754_finite _ _ _ => true
  | _ => false
  end.

(** The float is neither a NaN nor an infinity. *)
Definition finite (f : float) : bool := SFis_finite (Prim2SF f).

(** The state after some more events were recorded. *)
Definition record (st : State) (evs : list event) : State :=
  {| self := self st; trace := trace st ++ evs |}.

(** A method is uniform for a given [self] when it neither reads the trace
    nor writes [self]: its result and the events it records are the same
    from every trace. *)
Definition uniform {A} (h : Host) (d : SmbfsDriver) (m : M A) : Prop :=
  exists r evs, forall t,
    m h {| self := d; trace := t |} = (r, {| self := d; trace := t ++ evs |}).

(** The share passes, or fails, the eligibility predicate for the size. *)
Definition eligible (h : Host) (st : State) (n : Z) (s : string) : Prop :=
  eval (Smbfs._is_share_eligible s n) h st = Ok true.

Definition ineligible (h : Host) (st : State) (n : Z) (s : string) : Prop :=
  eval (Smbfs._is_share_eligible s n) h st = Ok false.

(** The capacity query of the share reports [a] bytes allocated. *)
Definition allocated (h : Host) (st : State) (s : string) (a : float) : Prop :=
  exists total_size total_available,
    eval (Smbfs._get_capacity_info s) h st = Ok (total_size, total_available, a).


(** The state of the same driver at another trace. *)
Definition at_trace (st : State) (t : list event) : State :=
  {| self := self st; trace := t |}.

(** The two inspection commands, for a mount point. *)
Definition stat_cmd (mount_point : string) : list string :=
  ["stat"; "-f"; "-c"; "%S %b %a"; mount_point].

Definition du_cmd (mount_point : string) : list string :=
  ["du"; "-sb"; "--apparent-size"; "--exclude"; "*snapshot*"; mount_point].

(** ** Concrete hosts and drivers *)

Module Example.

Fixpoint digits (s : string) (acc : Z) : option Z :=
  match s with
  | EmptyString => Some acc
  | String c s' =>
      let n := Z.of_nat (nat_of_ascii c) in
      if (48 <=? n) && (n <=? 57) then digits s' (10 * acc + (n - 48)) else None
  end.

(** [float] on an unsigned decimal integer literal, which is what [stat]
    and [du] print: the nearest binary64 value. *)
Definition float_of_decimal (s : string) : option float :=
  match s with
  | EmptyString => None
  | _ =>
      match digits s 0 with
      | Some z => Some (SF2Prim (binary_normalize prec emax z 0 false))
      | None => None
      end
  end.

(** One mounted share of a host: its address, its mount point and what the
    two inspection commands print there. *)
Record entry := {
  address : string;
  mount_point : string;
  stat_out : string;
  du_out : string
}.

Fixpoint by_mount_point (l : list entry) (mp : string) : option entry :=
  match l with
  | [] => None
  | e :: l' => if String.eqb (mount_point e) mp then Some e else by_mount_point l' mp
  end.

Fixpoint by_address (l : list entry) (a : string) : option entry :=
  match l with
  | [] => None
  | e :: l' => if String.eqb (address e) a then Some e else by_address l' a
  end.

Definition run (l : list entry) (cmd : list string) (root : bool)
    : result (string * string) :=
  match cmd with
  | ["stat"; "-f"; "-c"; "%S %b %a"; mp] =>
      match by_mount_point l mp with
      | Some e => Ok (stat_out e, "")
      | None => Raise (ProcessExecutionError cmd)
      end
  | ["du"; "-sb"; "--apparent-size"; "--exclude"; "*snapshot*"; mp] =>
      match by_mount_point l mp with
      | Some e => Ok (du_out e, "")
      | None => Raise (ProcessExecutionError cmd)
      end
  | _ => Ok ("", "")
  end.

(** A host with the given shares; only [present] paths exist. *)
Definition host_of (l : list entry) (present : list string) : Host := {|
  py_float := float_of_decimal;
  path_exists := fun p => existsb (String.eqb p) present;
  execute := run l;
  get_mount_point := fun a =>
    match by_address l a with
    | Some e => mount_point e
    | None => "/mnt/" +:+ a
    end;
  client_mount := fun _ _ => Ok tt
|}.

(** The default policy but for the two ratios. *)
Definition conf (used_ratio oversub_ratio : float) : Configuration := {|
  smbfs_shares_config := Some "/etc/cinder/smbfs_shares";
  smbfs_sparsed_volumes := true;
  smbfs_used_ratio := used_ratio;
  smbfs_oversub_ratio := oversub_ratio;
  smbfs_mount_point_base := "/var/lib/cinder/mnt";
  smbfs_qcow2_volumes := false;
  smbfs_mount_options := None
|}.

Definition driver (c : Configuration) (known : gmap string (option string))
    (mounted : list string) : State :=
  {| self := {| configuration := c; shares := known;
                _mounted_shares := mounted; img_suffix := None |};
     trace := [] |}.

(** 0.95 and 1.2, as binary64 *)
Definition r095 : float := 0x1.e666666666666p-1%float.
Definition r12 : float := 0x1.3333333333333p+0%float.

Definition TAB : string := String (ascii_of_nat 9) EmptyString.
Definition NL : string := String (ascii_of_nat 10) EmptyString.

(** A share mounted under [/mnt]: [stat] prints the three numbers and a
    newline, [du] prints the byte count, a tab, the path and a newline. *)
Definition share (nm block_size blocks_total blocks_avail bytes : string) : entry := {|
  address := "//srv/" +:+ nm;
  mount_point := "/mnt/" +:+ nm;
  stat_out := block_size +:+ " " +:+ blocks_total +:+ " " +:+ blocks_avail +:+ NL;
  du_out := bytes +:+ TAB +:+ "/mnt/" +:+ nm +:+ NL
|}.

(** A 100 GiB share with 10 GiB available and 80 GiB allocated. *)
Definition big : entry := share "big" "4096" "26214400" "2621440" "85899345920".

(** Three half-empty 100 GiB shares with 10, 5 and 5 bytes allocated. *)
Definition share_A : entry := share "A" "4096" "26214400" "13107200" "10".
Definition share_B : entry := share "B" "4096" "26214400" "13107200" "5".
Definition share_C : entry := share "C" "4096" "26214400" "13107200" "5".

(** A share whose filesystem reports no blocks at all. *)
Definition empty_fs : entry := share "none" "4096" "0" "0" "0".

(** A share with no block available. *)
Definition full : entry := share "full" "4096" "26214400" "0" "5".

(** The hosts and driver states of the examples: the policy is a used
    ratio of 0.95 and an oversubscription ratio of 1.2. *)
Definition policy : Configuration := conf r095 r12.

Definition big_host : Host := host_of [big] [].
Definition big_state : State := driver policy ∅ ["//srv/big"].

Definition three_host : Host := host_of [share_A; share_B; share_C] [].
Definition three_state : State := driver policy ∅ ["//srv/A"; "//srv/B"; "//srv/C"].

Definition full_host : Host := host_of [full] [].
Definition full_state : State := driver policy ∅ ["//srv/full"].

Definition empty_fs_host : Host := host_of [empty_fs] [].
Definition empty_fs_state : State := driver policy ∅ ["//srv/none"].

Definition unmounted_state : State := driver policy ∅ [].

(** A volume asking for a type the driver does not know. *)
Definition raw_volume : Volume.t := {|
  Volume.name := "volume-1";
  Volume.size := 1;
  Volume.provider_location := Some "//srv/A";
  Volume.volume_type := Some {| Volume.type_name := "raw" |}
|}.

(** The inherited methods of a bare driver: they do nothing, and a volume
    lives at its name under the mount point of its share. *)
Definition bare : Smbfs.RemoteFsDriver := {|
  Smbfs.super_do_setup := ret tt;
  Smbfs._ensure_shares_mounted := ret tt;
  Smbfs.local_path := fun v =>
    let* h := ask in
    ret (get_mount_point h (default "" (Volume.provider_location v))
         +:+ "/" +:+ Volume.name v);
  Smbfs._create_qcow2_file := fun _ _ => ret tt;
  Smbfs._create_sparsed_file := fun _ _ => ret tt;
  Smbfs._create_regular_file := fun _ _ => ret tt;
  Smbfs._set_rw_permissions_for_all := fun _ => ret tt
|}.

End Example.

(** ** Further observations and scenarios *)

(** What an inspection of the shares of [l] may leave in the trace: one of
    the two inspection commands at the mount point of a share of [l], run
    as root, or a debug line. *)
Definition inspection_event (h : Host) (l : list string) (ev : event) : Prop :=
  (exists s, s ∈ l /\
     (ev = Execute (stat_cmd (get_mount_point h s)) true \/
      ev = Execute (du_cmd (get_mount_point h s)) true))
  \/ exists m, ev = Log DEBUG m.

(** A method is confined to the events of [P] for a given [self] when it
    leaves [self] alone and records, from every trace, the same events, all
    of them in [P]. *)
Definition confined {A} (P : event -> Prop) (h : Host) (d : SmbfsDriver)
    (m : M A) : Prop :=
  exists r evs, Forall P evs /\ forall t,
    m h {| self := d; trace := t |} = (r, {| self := d; trace := t ++ evs |}).

(** No character of the string is whitespace. *)
Fixpoint no_space (s : string) : bool :=
  match s with
  | EmptyString => true
  | String c s' => negb (Py.isspace c) && no_space s'
  end.

(** A token: a non-empty string without whitespace. *)
Definition token (s : string) : Prop := s <> EmptyString /\ no_space s = true.

(** The three file formats [_do_create_volume] hands to [_create_vpc_file]. *)
Definition vpc_family (nm : string) : Prop := nm = "vpc" \/ nm = "vhd" \/ nm = "vhdx".

(** The command [_create_vpc_file] runs. *)
Definition qemu_img_cmd (volume_path : string) (volume_size : Z) : list string :=
  ["qemu-img"; "create"; "-f"; "vpc"; volume_path;
   Smbfs.str_int (volume_size * Py.GiB)].

(** Reading a decimal integer literal back. *)
Definition int_of_str (s : string) : option Z :=
  option_map Z.of_int (NilZero.int_of_string s).

(** [self] with its image suffix cleared, as the untyped branch of
    [_do_create_volume] leaves it. *)
Definition without_suffix (d : SmbfsDriver) : SmbfsDriver :=
  {| configuration := configuration d;
     shares := shares d;
     _mounted_shares := _mounted_shares d;
     img_suffix := None |}.

(** [self] with an empty shares map, as [do_setup] leaves it before it
    mounts. *)
Definition without_shares (d : SmbfsDriver) : SmbfsDriver :=
  {| configuration := configuration d;
     shares := ∅;
     _mounted_shares := _mounted_shares d;
     img_suffix := img_suffix d |}.

(** The creation routine the untyped branch picks: qcow2 before sparse,
    sparse before regular. *)
Definition untyped_creator (base : Smbfs.RemoteFsDriver) (c : Configuration)
    : string -> Z -> M unit :=
  if smbfs_qcow2_volumes c then Smbfs._create_qcow2_file base
  else if smbfs_sparsed_volumes c then Smbfs._create_sparsed_file base
  else Smbfs._create_regular_file base.

Module Scenario.

(** A host with one filesystem for every share: [stat] and [du] answer as
    given, every other command succeeds silently, the client's mount ends
    as given and only the [present] paths exist. *)
Definition host_with (stat du : result (string * string)) (mounting : result unit)
    (present : list string) : Host := {|
  py_float := Example.float_of_decimal;
  path_exists := fun p => existsb (String.eqb p) present;
  execute := fun cmd _ =>
    match cmd with
    | "stat" :: _ => stat
    | "du" :: _ => du
    | _ => Ok ("", "")
    end;
  get_mount_point := fun a => "/mnt" +:+ a;
  client_mount := fun _ _ => mounting
|}.

Definition stat_ok : result (string * string) := Ok ("4096 26214400 13107200", "").
Definition du_ok : result (string * string) := Ok ("5 /mnt", "").
Definition failed : exn := ProcessExecutionError ["stat"].

Definition state : State := Example.driver Example.policy ∅ ["/a"; "/b"].

(** A driver that knows mount options for the share [/a]. *)
Definition state_with_options : State :=
  Example.driver Example.policy
    {[ "/a" := Some "  -o username=u,password=p   vers=3.0 " ]} ["/a"].

Definition volume (location : option string) (type : option string) : Volume.t := {|
  Volume.name := "volume-1";
  Volume.size := 2;
  Volume.provider_location := location;
  Volume.volume_type := option_map (fun nm => {| Volume.type_name := nm |}) type
|}.

(** [float] that also reads the literal [nan]. *)
Definition float_or_nan (s : string) : option float :=
  if String.eqb s "nan" then Some nan else Example.float_of_decimal s.

(** A host whose [du] prints [nan]. *)
Definition nan_host : Host := {|
  py_float := float_or_nan;
  path_exists := fun _ => false;
  execute := fun cmd _ =>
    match cmd with
    | "stat" :: _ => stat_ok
    | "du" :: _ => Ok ("nan /mnt", "")
    | _ => Ok ("", "")
    end;
  get_mount_point := fun a => "/mnt" +:+ a;
  client_mount := fun _ _ => Ok tt
|}.

(** A host where the filesystem of [/b] cannot be inspected. *)
Definition half_host : Host := {|
  py_float := Example.float_of_decimal;
  path_exists := fun _ => false;
  execute := fun cmd _ =>
    match cmd with
    | ["stat"; _; _; _; "/mnt/b"] => Raise failed
    | "stat" :: _ => stat_ok
    | "du" :: _ => du_ok
    | _ => Ok ("", "")
    end;
  get_mount_point := fun a => "/mnt" +:+ a;
  client_mount := fun _ _ => Ok tt
|}.

(** A driver state with the given shares file and ratios, and the host on
    which only the default shares file exists. *)
Definition setup_state (config : option string) (used_ratio oversub_ratio : float)
    : State :=
  {| self := {| configuration :=
                  {| smbfs_shares_config := config;
                     smbfs_sparsed_volumes := true;
                     smbfs_used_ratio := used_ratio;
                     smbfs_oversub_ratio := oversub_ratio;
                     smbfs_mount_point_base := "/var/lib/cinder/mnt";
                     smbfs_qcow2_volumes := false;
                     smbfs_mount_options := None |};
                shares := {[ "/old" := None ]};
                _mounted_shares := [];
                img_suffix := None |};
     trace := [] |}.

Definition setup_host : Host := Example.host_of [] ["/etc/cinder/smbfs_shares"].

(** A host where both shares can be inspected. *)
Definition sound_host : Host := host_with stat_ok du_ok (Ok tt) [].

End Scenario.

(** ** Facts about float comparisons *)

Module FloatFacts.

Lemma SFcompare_refl f : SFis_nan f = false -> SFcompare f f = Some Eq.
Proof.
  destruct f as [s|s| |s m e]; simpl; try discriminate; intros _.
  - reflexivity.
  - destruct s; reflexivity.
  - rewrite Z.compare_refl. fold (Pos.compare m m). rewrite Pos.compare_refl.
    destruct s; reflexivity.
Qed.

Lemma is_nan_spec x : is_nan x = SFis_nan (Prim2SF x).
Proof.
  unfold is_nan. rewrite FloatAxioms.eqb_spec. unfold SFeqb.
  destruct (SFis_nan (Prim2SF x)) eqn:E.
  - destruct (Prim2SF x); try discriminate. reflexivity.
  - rewrite SFcompare_refl by exact E. reflexivity.
Qed.



Lemma SFltb_trans a b c : SFltb a b = true -> SFltb b c = true -> SFltb a c = true.
Proof.
  unfold SFltb.
  destruct a as [sa|sa| |sa ma ea], b as [sb|sb| |sb mb eb], c as [sc|sc| |sc mc ec];
    simpl; try discriminate; try reflexivity;
    try (destruct sa); try (destruct sb); try (destruct sc);
    try discriminate; try reflexivity.
  all: fold (Pos.compare ma mb); fold (Pos.compare mb mc); fold (Pos.compare ma mc).
  all: destruct (Z.compare_spec ea eb); destruct (Z.compare_spec eb ec);
    destruct (Z.compare_spec ea ec); try discriminate; try reflexivity; try lia.
  all: destruct (Pos.compare_spec ma mb); destruct (Pos.compare_spec mb mc);
    destruct (Pos.compare_spec ma mc); simpl; try discriminate; try reflexivity; try lia.
Qed.

Lemma ltb_trans (a b c : float) :
  (a <? b)%float = true -> (b <? c)%float = true -> (a <? c)%float = true.
Proof.
  intros H1 H2. rewrite ltb_spec in H1. rewrite ltb_spec in H2. rewrite ltb_spec.
  exact (SFltb_trans _ _ _ H1 H2).
Qed.

(** A float strictly above zero is a number and is not zero. *)
Lemma pos_not_zero (x : float) : (0 <? x)%float = true -> (x =? 0)%float = false.
Proof.
  rewrite ltb_spec. rewrite FloatAxioms.eqb_spec. unfold SFltb, SFeqb.
  change (Prim2SF 0) with (S754_zero false).
  destruct (Prim2SF x) as [s|s| |s m e]; simpl; try discriminate;
    destruct s; simpl; try discriminate; reflexivity.
Qed.

Lemma pos_not_nan (x : float) : (0 <? x)%float = true -> is_nan x = false.
Proof.
  rewrite ltb_spec. rewrite is_nan_spec. unfold SFltb.
  change (Prim2SF 0) with (S754_zero false).
  destruct (Prim2SF x); simpl; try discriminate; reflexivity.
Qed.

Lemma max0_not_nan (x : float) : is_nan (Py.max0 x) = false.
Proof.
  unfold Py.max0. destruct (0 <? x)%float eqn:E.
  - apply pos_not_nan, E.
  - reflexivity.
Qed.

(** A NaN subtracted from anything is not above zero. *)
Lemma sub_nan_not_pos (x a : float) : is_nan a = true -> (0 <? x - a)%float = false.
Proof.
  rewrite is_nan_spec. rewrite ltb_spec. rewrite sub_spec. unfold SF64sub, SFltb.
  destruct (Prim2SF a); try discriminate. intros _.
  destruct (Prim2SF x); reflexivity.
Qed.

Lemma zero_le_int (z : Z) : 0 <= z -> Py.float_le_int 0 z = true.
Proof.
  intros H. unfold Py.float_le_int. change (Prim2SF 0) with (S754_zero false).
  cbn [Py.SFcompare_Z]. destruct (Z.compare_spec 0 z); try reflexivity. lia.
Qed.

(** Rounding a non-negative mantissa never gives a NaN. *)
Lemma shr_1_nonneg mrs : 0 <= shr_m mrs -> 0 <= shr_m (shr_1 mrs).
Proof.
  destruct mrs as [m r s]. simpl.
  destruct m as [|[p|p|]|[p|p|]]; simpl; lia.
Qed.

Lemma iter_shr_1_nonneg p : forall mrs,
  0 <= shr_m mrs -> 0 <= shr_m (SpecFloat.iter_pos shr_1 p mrs).
Proof.
  induction p as [p IH|p IH|]; intros mrs H; simpl.
  - apply IH, IH, shr_1_nonneg, H.
  - apply IH, IH, H.
  - apply shr_1_nonneg, H.
Qed.

Lemma shr_fexp_nonneg pr em m e l :
  0 <= m -> 0 <= shr_m (fst (shr_fexp pr em m e l)).
Proof.
  intros H. unfold shr_fexp, shr.
  assert (H0 : 0 <= shr_m (shr_record_of_loc m l)) by (destruct l as [|[| |]]; exact H).
  destruct (_ - e); simpl; try exact H0. apply iter_shr_1_nonneg, H0.
Qed.

Lemma round_nearest_even_nonneg m l : 0 <= m -> 0 <= round_nearest_even m l.
Proof.
  intros H. destruct l as [|[| |]]; simpl; try lia.
  destruct (Z.even m); lia.
Qed.

Lemma binary_round_aux_number pr em sx mx ex lx :
  0 <= mx -> SFis_nan (binary_round_aux pr em sx mx ex lx) = false.
Proof.
  intros H. unfold binary_round_aux.
  pose proof (shr_fexp_nonneg pr em mx ex lx H) as H1.
  destruct (shr_fexp pr em mx ex lx) as [mrs' e']. simpl in H1.
  pose proof (shr_fexp_nonneg pr em _ e' loc_Exact
                (round_nearest_even_nonneg _ (loc_of_shr_record mrs') H1)) as H2.
  destruct (shr_fexp pr em _ e' loc_Exact) as [mrs'' e'']. simpl in H2.
  destruct (shr_m mrs''); try reflexivity.
  - destruct (e'' <=? em - pr); reflexivity.
  - lia.
Qed.

Lemma div_core_nonneg pr em m1 e1 m2 e2 :
  0 <= fst (fst (SFdiv_core_binary pr em (Z.pos m1) e1 (Z.pos m2) e2)).
Proof.
  unfold SFdiv_core_binary.
  set (s := _ - _ - _).
  set (m' := match s with
             | Z.pos _ => Z.shiftl (Z.pos m1) s
             | 0 => Z.pos m1
             | Z.neg _ => 0
             end).
  assert (Hm : 0 <= m').
  { subst m'. destruct s; try lia. apply Z.shiftl_nonneg. lia. }
  pose proof (Z_div_mod m' (Z.pos m2) eq_refl) as Hd.
  destruct (Z.div_eucl m' (Z.pos m2)) as [q r]. simpl. nia.
Qed.

Lemma SFdiv_number pr em x y :
  SFis_finite x = true -> SFltb (S754_zero false) y = true ->
  SFis_nan (SFdiv pr em x y) = false.
Proof.
  intros Hx Hy.
  destruct x as [sx|sx| |sx mx ex], y as [sy|sy| |sy my ey];
    try discriminate; try reflexivity.
  unfold SFdiv.
  pose proof (div_core_nonneg pr em mx ex my ey) as Hq.
  destruct (SFdiv_core_binary pr em (Z.pos mx) ex (Z.pos my) ey) as [[mz ez] lz].
  simpl in Hq. apply binary_round_aux_number, Hq.
Qed.

(** A finite figure divided by a positive one is a number. *)
Lemma div_number (x y : float) :
  finite x = true -> (0 <? y)%float = true -> is_nan (x / y)%float = false.
Proof.
  unfold finite. rewrite ltb_spec. rewrite is_nan_spec. rewrite div_spec.
  change (Prim2SF 0) with (S754_zero false). apply SFdiv_number.
Qed.

(** On numbers, [>=] is the negation of [<]. *)
Lemma ltb_negb_leb (x y : float) :
  is_nan x = false -> is_nan y = false -> (x <? y)%float = negb (y <=? x)%float.
Proof.
  rewrite !is_nan_spec. rewrite ltb_spec. rewrite leb_spec. unfold SFltb, SFleb.
  destruct (Prim2SF x) as [sx|sx| |sx mx ex], (Prim2SF y) as [sy|sy| |sy my ey];
    simpl; try discriminate; intros _ _;
    try (destruct sx); try (destruct sy); try reflexivity.
  all: fold (Pos.compare mx my); fold (Pos.compare my mx).
  all: rewrite (Z.compare_antisym ex ey); rewrite (Pos.compare_antisym mx my).
  all: destruct (ex ?= ey); simpl; try reflexivity;
    destruct (mx ?= my)%positive; reflexivity.
Qed.

(** Against an integer, [>] is the negation of [<=] for a number. *)
Lemma float_gt_int_negb_le (f : float) (z : Z) :
  is_nan f = false -> Py.float_gt_int f z = negb (Py.float_le_int f z).
Proof.
  rewrite is_nan_spec. unfold Py.float_gt_int, Py.float_le_int.
  destruct (Prim2SF f) as [s|s| |s m e]; cbn [Py.SFcompare_Z SFis_nan];
    try discriminate; intros _.
  - destruct (0 ?= z); reflexivity.
  - destruct s; reflexivity.
  - destruct (0 <=? e); match goal with |- context [?a ?= ?b] => destruct (a ?= b) end;
      reflexivity.
Qed.

End FloatFacts.

(** ** How the methods run *)

Module Run.

Import Smbfs.

Section Uniform.

Context (h : Host) (d : SmbfsDriver).

Lemma uniform_ret {A} (a : A) : uniform h d (ret a).
Proof. exists (Ok a), []. intros t. unfold ret. by rewrite app_nil_r. Qed.

Lemma uniform_raise {A} (e : exn) : uniform h d (@raise A e).
Proof. exists (Raise e), []. intros t. unfold raise. by rewrite app_nil_r. Qed.

Lemma uniform_lift {A} (r : result A) : uniform h d (lift r).
Proof. exists r, []. intros t. unfold lift. by rewrite app_nil_r. Qed.

Lemma uniform_ask : uniform h d ask.
Proof. exists (Ok h), []. intros t. unfold ask. by rewrite app_nil_r. Qed.

Lemma uniform_get_self : uniform h d get_self.
Proof. exists (Ok d), []. intros t. unfold get_self. simpl. by rewrite app_nil_r. Qed.

Lemma uniform_emit (e : event) : uniform h d (emit e).
Proof. exists (Ok tt), [e]. intros t. reflexivity. Qed.

Lemma uniform_bind {A B} (m : M A) (k : A -> M B) :
  uniform h d m -> (forall a, uniform h d (k a)) -> uniform h d (bind m k).
Proof.
  intros (r & evs & Hm) Hk. destruct r as [a|e].
  - destruct (Hk a) as (r' & evs' & Hka). exists r', (evs ++ evs')%list. intros t.
    unfold bind. rewrite Hm. rewrite Hka. by rewrite app_assoc.
  - exists (Raise e), evs. intros t. unfold bind. by rewrite Hm.
Qed.

End Uniform.

Ltac uniform_step :=
  first
    [ apply uniform_ret | apply uniform_raise | apply uniform_lift
    | apply uniform_ask | apply uniform_get_self | apply uniform_emit
    | apply uniform_bind; [ | intros ? ]
    | match goal with
      | |- uniform _ _ (match ?x with _ => _ end) => destruct x
      | |- uniform _ _ (let _ := _ in _) => cbv zeta
      end ].

Lemma uniform_float_of h d s : uniform h d (float_of s).
Proof. unfold float_of. repeat uniform_step. Qed.

Lemma uniform_py_div h d x y : uniform h d (py_div x y).
Proof. unfold py_div. repeat uniform_step. Qed.

Lemma uniform_execute h d cmd root : uniform h d (_execute cmd root).
Proof. unfold _execute. repeat uniform_step. Qed.

Lemma uniform_LOG h d l m : uniform h d (LOG l m).
Proof. apply uniform_emit. Qed.

Lemma uniform_map_float h d l : uniform h d (map_float l).
Proof.
  induction l as [|s l IH]; simpl.
  - apply uniform_ret.
  - apply uniform_bind; [apply uniform_float_of | intros f].
    apply uniform_bind; [exact IH | intros fs]. apply uniform_ret.
Qed.

Ltac uniform_call :=
  first
    [ apply uniform_float_of | apply uniform_py_div | apply uniform_execute
    | apply uniform_LOG | apply uniform_map_float | uniform_step ].

Lemma uniform_get_capacity_info h d s : uniform h d (_get_capacity_info s).
Proof.
  unfold _get_capacity_info, _get_mount_point_for_share. repeat uniform_call.
Qed.

Lemma uniform_is_share_eligible h d s n : uniform h d (_is_share_eligible s n).
Proof.
  unfold _is_share_eligible.
  repeat first [ apply uniform_get_capacity_info | uniform_call ].
Qed.

Lemma uniform_run {A} (m : M A) h st :
  uniform h (self st) m ->
  exists evs, forall t,
    m h {| self := self st; trace := t |}
    = (eval m h st, {| self := self st; trace := t ++ evs |}).
Proof.
  intros (r & evs & Hm). exists evs. intros t. rewrite Hm. f_equal.
  unfold eval. destruct st as [d t0]. simpl in *. by rewrite Hm.
Qed.

End Run.

(** ** The eligibility predicate *)

Module Eligibility.

Import Smbfs FloatFacts.

Lemma GiB_pow : Py.GiB = 2 ^ 30.
Proof. reflexivity. Qed.

(** What the predicate does once the capacity query has answered. *)
Lemma after_capacity_query h st s n total_size total_available total_allocated :
  eval (_get_capacity_info s) h st
    = Ok (total_size, total_available, total_allocated) ->
  _is_share_eligible s n h st
  = (let used_ratio := smbfs_used_ratio (configuration (self st)) in
     let oversub_ratio := smbfs_oversub_ratio (configuration (self st)) in
     let apparent_size := Py.max0 (total_size * oversub_ratio) in
     let apparent_available := Py.max0 (apparent_size - total_allocated) in
     let* used := py_div (total_size - total_available) total_size in
     if (used_ratio <? used)%float then
       LOG DEBUG (Msg "%s is above smbfs_used_ratio" [PyStr s]);;
       ret false
     else if Py.float_le_int apparent_available (n * Py.GiB) then
       LOG DEBUG (Msg "%s is above smbfs_oversub_ratio" [PyStr s]);;
       ret false
     else
       let* reserved := py_div total_allocated total_size in
       if (oversub_ratio <=? reserved)%float then
         LOG DEBUG (Msg "%s reserved space is above smbfs_oversub_ratio" [PyStr s]);;
         ret false
       else ret true) h (exec (_get_capacity_info s) h st).
Proof.
  unfold eval, exec. intros E.
  unfold _is_share_eligible at 1. unfold bind at 1. unfold get_self at 1.
  unfold bind at 1.
  destruct (_get_capacity_info s h st) as [r st1]. simpl in E. subst r.
  reflexivity.
Qed.

(** C2: a share with [total_size > 0] whose used fraction
    [(total_size - total_available) / total_size] exceeds [smbfs_used_ratio]
    is not eligible, whatever the oversubscription ratio, the allocation and
    the requested size; the rejection is the first thing decided after the
    capacity query: the only event recorded after it is the used-ratio log
    line, so neither oversubscription check was reached. *)
Theorem used_ratio_rejects_first h st s n total_size total_available total_allocated :
  eval (_get_capacity_info s) h st
    = Ok (total_size, total_available, total_allocated) ->
  (0 <? total_size)%float = true ->
  (smbfs_used_ratio (configuration (self st))
     <? (total_size - total_available) / total_size)%float = true ->
  eval (_is_share_eligible s n) h st = Ok false /\
  exec (_is_share_eligible s n) h st
    = record (exec (_get_capacity_info s) h st)
        [Log DEBUG (Msg "%s is above smbfs_used_ratio" [PyStr s])].
Proof.
  intros E Hpos Hused.
  unfold eval at 1, exec at 1. rewrite (after_capacity_query _ _ _ n _ _ _ E).
  cbv zeta. unfold py_div. rewrite (pos_not_zero _ Hpos).
  unfold bind, ret. cbn beta iota. rewrite Hused.
  split; reflexivity.
Qed.

Lemma used_ratio_rejects_first_witness :
  eval (_is_share_eligible "//srv/full" 1) Example.full_host Example.full_state
    = Ok false /\
  exec (_is_share_eligible "//srv/full" 1) Example.full_host Example.full_state
    = record (exec (_get_capacity_info "//srv/full")
                   Example.full_host Example.full_state)
        [Log DEBUG (Msg "%s is above smbfs_used_ratio" [PyStr "//srv/full"])].
Proof.
  apply (used_ratio_rejects_first Example.full_host Example.full_state
           "//srv/full" 1 107374182400%float 0%float 5%float);
    vm_compute; reflexivity.
Defined.

(** After the used-ratio check, the answer is the conjunction of the two
    strict comparisons as soon as the ratios compared by the second one are
    numbers. *)
Lemma oversub_checks_on_numbers h st s n total_size total_available total_allocated :
  eval (_get_capacity_info s) h st
    = Ok (total_size, total_available, total_allocated) ->
  (0 <? total_size)%float = true ->
  (smbfs_used_ratio (configuration (self st))
     <? (total_size - total_available) / total_size)%float = false ->
  is_nan (smbfs_oversub_ratio (configuration (self st))) = false ->
  is_nan (total_allocated / total_size)%float = false ->
  eval (_is_share_eligible s n) h st
  = Ok (Py.float_gt_int
          (Py.max0 (Py.max0 (total_size * smbfs_oversub_ratio (configuration (self st)))
                    - total_allocated))
          (n * 2 ^ 30)
        && (total_allocated / total_size
              <? smbfs_oversub_ratio (configuration (self st)))%float).
Proof.
  intros E Hpos Hused Hov Hq.
  unfold eval at 1. rewrite (after_capacity_query _ _ _ n _ _ _ E).
  cbv zeta. unfold py_div. rewrite (pos_not_zero _ Hpos).
  unfold bind, ret. cbn beta iota. rewrite Hused.
  rewrite float_gt_int_negb_le by apply max0_not_nan.
  rewrite (ltb_negb_leb _ _ Hq Hov). rewrite <- GiB_pow.
  destruct (Py.float_le_int _ _); [reflexivity|].
  destruct (_ <=? _)%float; reflexivity.
Qed.

(** C3: for a share with [total_size > 0] that passes the used-ratio check,
    under a policy with [smbfs_oversub_ratio > 0] and with a finite
    allocation figure, the predicate answers, and its answer is the
    conjunction of
    [max(0, max(0, total_size * oversub_ratio) - total_allocated)
     > requested_size_gib * 2^30] and
    [total_allocated / total_size < oversub_ratio]: true when both hold,
    false when either fails. *)
Theorem eligible_iff_oversub_checks h st s n total_size total_available total_allocated :
  eval (_get_capacity_info s) h st
    = Ok (total_size, total_available, total_allocated) ->
  (0 <? total_size)%float = true ->
  (smbfs_used_ratio (configuration (self st))
     <? (total_size - total_available) / total_size)%float = false ->
  (0 <? smbfs_oversub_ratio (configuration (self st)))%float = true ->
  finite total_allocated = true ->
  eval (_is_share_eligible s n) h st
  = Ok (Py.float_gt_int
          (Py.max0 (Py.max0 (total_size * smbfs_oversub_ratio (configuration (self st)))
                    - total_allocated))
          (n * 2 ^ 30)
        && (total_allocated / total_size
              <? smbfs_oversub_ratio (configuration (self st)))%float).
Proof.
  intros E Hpos Hused Hov Hfin.
  apply (oversub_checks_on_numbers _ _ _ _ _ _ _ E Hpos Hused).
  - apply pos_not_nan, Hov.
  - apply div_number; assumption.
Qed.

Lemma eligible_iff_oversub_checks_witness :
  eval (_is_share_eligible "//srv/big" 30) Example.big_host Example.big_state
  = Ok (Py.float_gt_int
          (Py.max0 (Py.max0 (107374182400 * Example.r12) - 85899345920))
          (30 * 2 ^ 30)
        && (85899345920 / 107374182400 <? Example.r12)%float).
Proof.
  apply (eligible_iff_oversub_checks Example.big_host Example.big_state
           "//srv/big" 30 107374182400%float 10737418240%float 85899345920%float);
    vm_compute; reflexivity.
Defined.

(** The two worked examples: on the 100 GiB share with 10 GiB available and
    80 GiB allocated, 30 GiB fit and 50 GiB are refused by the first
    oversubscription check. *)
Example thirty_gib_fit :
  eval (_is_share_eligible "//srv/big" 30) Example.big_host Example.big_state
  = Ok true.
Proof. vm_compute. reflexivity. Qed.

Example fifty_gib_refused :
  _is_share_eligible "//srv/big" 50 Example.big_host Example.big_state
  = (Ok false,
     record Example.big_state
       [Execute (stat_cmd "/mnt/big") true; Execute (du_cmd "/mnt/big") true;
        Log DEBUG (Msg "%s is above smbfs_oversub_ratio" [PyStr "//srv/big"])]).
Proof. vm_compute. reflexivity. Qed.

(** C8: a share whose capacity query reports [total_size == 0] makes the
    predicate raise [ZeroDivisionError]: nothing declares the share
    ineligible or fails the inspection before the division by
    [total_size]. *)
Theorem zero_total_size_divides_by_zero h st s n total_size total_available total_allocated :
  eval (_get_capacity_info s) h st
    = Ok (total_size, total_available, total_allocated) ->
  (total_size =? 0)%float = true ->
  eval (_is_share_eligible s n) h st = Raise ZeroDivisionError.
Proof.
  intros E Hzero.
  unfold eval at 1. rewrite (after_capacity_query _ _ _ n _ _ _ E).
  cbv zeta. unfold py_div. rewrite Hzero. reflexivity.
Qed.

Lemma zero_total_size_divides_by_zero_witness :
  eval (_is_share_eligible "//srv/none" 1) Example.empty_fs_host Example.empty_fs_state
  = Raise ZeroDivisionError.
Proof.
  apply (zero_total_size_divides_by_zero Example.empty_fs_host Example.empty_fs_state
           "//srv/none" 1 0%float 0%float 0%float);
    vm_compute; reflexivity.
Defined.

(** For a non-negative size, an eligible share has a number for its
    allocation: with a NaN there, the headroom is [max(0, NaN) = 0] and the
    first oversubscription check refuses the share. *)
Lemma eligible_allocation_is_number h st n s a :
  0 <= n -> eligible h st n s -> allocated h st s a -> is_nan a = false.
Proof.
  intros Hn He (ts & ta & Hc). unfold eligible, eval in He.
  rewrite (after_capacity_query _ _ _ n _ _ _ Hc) in He. cbv zeta in He.
  unfold py_div in He. destruct (ts =? 0)%float; [discriminate|].
  unfold bind, ret in He. cbn beta iota in He.
  destruct (_ <? _)%float; [discriminate|].
  destruct (is_nan a) eqn:Hnan; [exfalso|reflexivity].
  unfold Py.max0 at 1 in He. rewrite (sub_nan_not_pos _ _ Hnan) in He.
  rewrite zero_le_int in He; [discriminate|].
  unfold Py.GiB. lia.
Qed.

End Eligibility.

(** ** The capacity inspector *)

Module Capacity.

Import Smbfs.

Lemma map_float_parsed h st l fs :
  map (py_float h) l = map Some fs -> map_float l h st = (Ok fs, st).
Proof.
  revert fs. induction l as [|x l IH]; intros [|f fs] E; try discriminate.
  - reflexivity.
  - simpl in E. injection E as Ex El.
    cbn [map_float]. unfold bind at 1. unfold float_of, bind, ask.
    rewrite Ex. unfold ret at 1. rewrite (IH _ El). reflexivity.
Qed.

(** C7: when [stat -f -c '%S %b %a'] at the mount point of the share prints
    the block size, the total blocks and the available blocks, and
    [du -sb --apparent-size --exclude '*snapshot*'] at the same mount point
    prints the allocated bytes first, [_get_capacity_info] returns
    [(block_size * blocks_total, block_size * blocks_avail, allocated)],
    and these two commands, run as root, are all it does: the allocation
    figure is the apparent-size usage [du] reports with every path matching
    [*snapshot*] excluded. *)
Theorem get_capacity_info_triple h st s df err du err'
    block_size blocks_total blocks_avail tok rest total_allocated :
  execute h (stat_cmd (get_mount_point h s)) true = Ok (df, err) ->
  map (py_float h) (Py.split df)
    = [Some block_size; Some blocks_total; Some blocks_avail] ->
  execute h (du_cmd (get_mount_point h s)) true = Ok (du, err') ->
  Py.split du = tok :: rest ->
  py_float h tok = Some total_allocated ->
  _get_capacity_info s h st
  = (Ok ((block_size * blocks_total)%float,
         (block_size * blocks_avail)%float,
         total_allocated),
     record st [Execute (stat_cmd (get_mount_point h s)) true;
                Execute (du_cmd (get_mount_point h s)) true]).
Proof.
  intros Hstat Hdf Hdu Hsplit Htok.
  unfold _get_capacity_info, _get_mount_point_for_share, _execute.
  unfold bind, ask, emit, lift, ret. cbn beta iota.
  fold (stat_cmd (get_mount_point h s)). rewrite Hstat.
  rewrite (map_float_parsed _ _ _ [block_size; blocks_total; blocks_avail] Hdf).
  cbn beta iota. fold (du_cmd (get_mount_point h s)). rewrite Hdu. rewrite Hsplit.
  unfold float_of, bind, ask, ret. cbn beta iota. rewrite Htok.
  unfold record. cbn [self trace]. rewrite <- app_assoc. reflexivity.
Qed.

Lemma get_capacity_info_triple_witness :
  _get_capacity_info "//srv/big" Example.big_host Example.big_state
  = (Ok ((4096 * 26214400)%float, (4096 * 2621440)%float, 85899345920%float),
     record Example.big_state
       [Execute (stat_cmd (get_mount_point Example.big_host "//srv/big")) true;
        Execute (du_cmd (get_mount_point Example.big_host "//srv/big")) true]).
Proof.
  apply (get_capacity_info_triple Example.big_host Example.big_state "//srv/big"
           (Example.stat_out Example.big) "" (Example.du_out Example.big) ""
           4096%float 26214400%float 2621440%float
           "85899345920" ["/mnt/big"] 85899345920%float);
    vm_compute; reflexivity.
Defined.

End Capacity.

(** ** Mounting *)

Module Mounting.

Import Smbfs.

(** C10: [_ensure_share_mounted] always asks the remotefs client to mount
    the share, and its outcome is the client's: the flags are the
    whitespace-separated tokens of the share's options string when the
    shares map has one, and the empty list when the share is absent from
    the map or mapped to [None]. *)
Theorem ensure_share_mounted_always_mounts h st s :
  exists mnt_flags,
    _ensure_share_mounted s h st
    = (client_mount h s mnt_flags,
       record st [Log DEBUG (Msg ">>>>%r" [PyDict (shares (self st))]);
                  Log DEBUG (Msg ">>>>%r" [PyStr s]);
                  Mount s mnt_flags]) /\
    (forall options, shares (self st) !! s = Some (Some options) ->
                     mnt_flags = Py.split options) /\
    (shares (self st) !! s = None \/ shares (self st) !! s = Some None ->
     mnt_flags = []).
Proof.
  exists (match shares (self st) !! s with
          | Some (Some options) => Py.split options
          | _ => []
          end).
  split; [|split].
  - unfold _ensure_share_mounted, LOG, bind, get_self, emit, ask, lift.
    cbn beta iota. unfold record. cbn [self trace].
    rewrite <- !app_assoc. reflexivity.
  - intros options E. rewrite E. reflexivity.
  - intros [E|E]; rewrite E; reflexivity.
Qed.

End Mounting.

(** ** The share selector *)

Module Selector.

Import Smbfs FloatFacts Run.

(** C5: with no mounted share, [_find_share] raises [SmbfsNoSharesMounted]
    for every requested size and leaves the state as it was: no command was
    run, so no capacity query and no eligibility check took place. *)
Theorem find_share_no_shares_mounted h st n :
  _mounted_shares (self st) = [] ->
  _find_share n h st = (Raise SmbfsNoSharesMounted, st).
Proof.
  intros E. unfold _find_share, bind, get_self. cbn beta iota. rewrite E.
  reflexivity.
Qed.

Lemma find_share_no_shares_mounted_witness :
  _find_share 1 Example.big_host Example.unmounted_state
  = (Raise SmbfsNoSharesMounted, Example.unmounted_state).
Proof.
  apply (find_share_no_shares_mounted Example.big_host Example.unmounted_state 1).
  reflexivity.
Defined.

Section Loop.

Context (h : Host) (st : State) (n : Z).

Lemma eligibility_run s :
  exists evs, forall t,
    _is_share_eligible s n h (at_trace st t)
    = (eval (_is_share_eligible s n) h st, at_trace st (t ++ evs)).
Proof. apply uniform_run, uniform_is_share_eligible. Qed.

Lemma capacity_run s :
  exists evs, forall t,
    _get_capacity_info s h (at_trace st t)
    = (eval (_get_capacity_info s) h st, at_trace st (t ++ evs)).
Proof. apply uniform_run, uniform_get_capacity_info. Qed.

(** The predicate answers only after the capacity query has. *)
Lemma answered_capacity s b :
  eval (_is_share_eligible s n) h st = Ok b ->
  exists c, eval (_get_capacity_info s) h st = Ok c.
Proof.
  unfold eval, _is_share_eligible. unfold bind at 1. unfold get_self at 1.
  unfold bind at 1. destruct (_get_capacity_info s h st) as [[c|e] st1]; simpl.
  - eauto.
  - discriminate.
Qed.


(** Over shares that all fail the predicate, the loop keeps its target. *)
Lemma loop_all_ineligible l target reserved t :
  (forall s, s ∈ l -> ineligible h st n s) ->
  exists t',
    _find_share_loop l n target reserved h (at_trace st t) = (Ok target, at_trace st t').
Proof.
  revert t. induction l as [|s l IH]; intros t Hl.
  - exists t. reflexivity.
  - destruct (eligibility_run s) as [evs Hs].
    destruct (IH (t ++ evs)%list) as [t' Ht'].
    { intros x Hx. apply Hl. by right. }
    exists t'. cbn [_find_share_loop]. unfold bind at 1. rewrite Hs.
    rewrite (Hl s) by (by left). exact Ht'.
Qed.


(** One turn of the loop over a share that fails the predicate. *)
Lemma loop_skip s l target rc :
  ineligible h st n s ->
  exists evs, forall t,
    _find_share_loop (s :: l) n target rc h (at_trace st t)
    = _find_share_loop l n target rc h (at_trace st (t ++ evs)).
Proof.
  intros Hb. destruct (eligibility_run s) as [evs Hs]. exists evs. intros t.
  cbn [_find_share_loop]. unfold bind at 1. rewrite Hs. rewrite Hb. reflexivity.
Qed.

(** One turn of the loop over an eligible share with [a] bytes allocated. *)
Lemma loop_take s l target rc a :
  eligible h st n s -> allocated h st s a ->
  exists evs, forall t,
    _find_share_loop (s :: l) n target rc h (at_trace st t)
    = match target with
      | Some c =>
          if (a <? rc)%float then _find_share_loop l n (Some s) a
          else _find_share_loop l n (Some c) rc
      | None => _find_share_loop l n (Some s) a
      end h (at_trace st (t ++ evs)).
Proof.
  intros Hb (ts & ta & Hc).
  destruct (eligibility_run s) as [evs Hs]. destruct (capacity_run s) as [evs' Hs'].
  exists (evs ++ evs')%list. intros t.
  cbn [_find_share_loop]. unfold bind at 1. rewrite Hs. rewrite Hb. cbn [negb].
  unfold bind at 1. rewrite Hs'. rewrite Hc. rewrite app_assoc.
  destruct target; reflexivity.
Qed.

Lemma answered_allocated s :
  eligible h st n s -> exists a, allocated h st s a.
Proof.
  intros Hb. destruct (answered_capacity _ _ Hb) as [[[ts ta] a] Hc].
  exists a, ts, ta. exact Hc.
Qed.



(** A share whose check raises stops the loop with that exception, once the
    shares before it have been checked. *)
Lemma loop_fault l1 s l2 e : forall target rc t,
  (forall x, x ∈ l1 -> exists b, eval (_is_share_eligible x n) h st = Ok b) ->
  eval (_is_share_eligible s n) h st = Raise e ->
  exists t',
    _find_share_loop (l1 ++ s :: l2) n target rc h (at_trace st t)
    = (Raise e, at_trace st t').
Proof.
  induction l1 as [|x l1 IH]; intros target rc t Hans Hs.
  - destruct (eligibility_run s) as [evs Hrun]. exists (t ++ evs)%list.
    cbn [app _find_share_loop]. unfold bind at 1. rewrite Hrun. rewrite Hs.
    reflexivity.
  - assert (Hans' : forall y, y ∈ l1 ->
                      exists b, eval (_is_share_eligible y n) h st = Ok b).
    { intros y Hy. apply Hans. by right. }
    destruct (Hans x) as [[|] Hb]; [by left| |].
    + destruct (answered_allocated _ Hb) as [a Ha].
      destruct (loop_take x (l1 ++ s :: l2) target rc a Hb Ha) as [evs Hstep].
      cbn [app]. destruct target as [c|]; [destruct (a <? rc)%float eqn:Hlt|].
      * destruct (IH (Some x) a (t ++ evs)%list Hans' Hs) as [t' Ht'].
        exists t'. rewrite Hstep. exact Ht'.
      * destruct (IH (Some c) rc (t ++ evs)%list Hans' Hs) as [t' Ht'].
        exists t'. rewrite Hstep. exact Ht'.
      * destruct (IH (Some x) a (t ++ evs)%list Hans' Hs) as [t' Ht'].
        exists t'. rewrite Hstep. exact Ht'.
    + destruct (loop_skip x (l1 ++ s :: l2) target rc Hb) as [evs Hstep].
      destruct (IH target rc (t ++ evs)%list Hans' Hs) as [t' Ht'].
      exists t'. cbn [app]. rewrite Hstep. exact Ht'.
Qed.

End Loop.

(** X9: the first mounted share whose check raises makes [_find_share]
    raise the same exception, whatever the shares before it offered and
    whatever comes after it. *)
Lemma find_share_propagates_fault h st n l1 s l2 e :
  _mounted_shares (self st) = (l1 ++ s :: l2)%list ->
  (forall x, x ∈ l1 -> exists b, eval (_is_share_eligible x n) h st = Ok b) ->
  eval (_is_share_eligible s n) h st = Raise e ->
  eval (_find_share n) h st = Raise e.
Proof.
  intros Hsplit Hans Hs.
  destruct (loop_fault h st n l1 s l2 e None 0%float (trace st) Hans Hs) as [t' Hrun].
  unfold eval, _find_share. unfold bind at 1. unfold get_self at 1.
  rewrite Hsplit. rewrite <- Hsplit.
  destruct (_mounted_shares (self st)) as [|s0 l0] eqn:El.
  { by destruct l1. }
  unfold bind at 1. unfold at_trace in Hrun. rewrite <- Hsplit in Hrun.
  destruct st as [d t0]. cbn [self trace] in *. rewrite Hrun. reflexivity.
Qed.




(** One mounted share whose filesystem reports no blocks stops the
    selection, whatever the other shares offer. *)
Example zero_size_share_stops_selection :
  eval (_find_share 1)
       (Example.host_of [Example.share_A; Example.empty_fs] [])
       (Example.driver Example.policy ∅ ["//srv/A"; "//srv/none"])
  = Raise ZeroDivisionError.
Proof. vm_compute. reflexivity. Qed.

(** Of A with 10 bytes allocated, B with 5 and C with 5, all eligible, B is
    selected. *)
Example first_of_the_least :
  eval (_find_share 1) Example.three_host Example.three_state = Ok "//srv/B".
Proof. vm_compute. reflexivity. Qed.

(** C6: over a non-empty list of mounted shares that all fail the
    eligibility predicate, [_find_share] raises [SmbfsNoSuitableShareFound]
    carrying the requested size. *)
Theorem find_share_no_suitable_share h st n :
  _mounted_shares (self st) <> [] ->
  (forall s, s ∈ _mounted_shares (self st) -> ineligible h st n s) ->
  eval (_find_share n) h st = Raise (SmbfsNoSuitableShareFound n).
Proof.
  intros Hne Hall.
  destruct (loop_all_ineligible h st n (_mounted_shares (self st)) None 0%float
              (trace st) Hall) as [t' Hrun].
  unfold eval, _find_share. unfold bind at 1. unfold get_self at 1.
  destruct (_mounted_shares (self st)) as [|s0 l0] eqn:El; [done|].
  unfold bind at 1. unfold at_trace in Hrun. destruct st as [d t0].
  cbn [self trace] in *. rewrite Hrun. reflexivity.
Qed.

Lemma find_share_no_suitable_share_witness :
  eval (_find_share 7) Example.full_host Example.full_state
  = Raise (SmbfsNoSuitableShareFound 7).
Proof.
  apply (find_share_no_suitable_share Example.full_host Example.full_state 7).
  - discriminate.
  - intros s Hs. apply elem_of_cons in Hs as [->|Hs]; [vm_compute; reflexivity|].
    by apply elem_of_nil in Hs.
Defined.

End Selector.

(** ** Setup *)

Module Setup.

Import Smbfs FloatFacts Example.

(** Whatever is above 1 is above 0. *)
Lemma above_one_positive (u : float) : (1 <? u)%float = true -> (0 <? u)%float = true.
Proof.
  intros H. assert (H0 : (0 <? 1)%float = true) by (vm_compute; reflexivity).
  exact (ltb_trans 0 1 u H0 H).
Qed.

(** Once the configuration file and the oversubscription ratio are found
    valid, every positive used ratio is let through to the mounting of the
    shares: the first conjunct of the test is false, and the bound of 1 in
    the second is never consulted. *)
Lemma do_setup_lets_positive_through base h st st1 c cs :
  super_do_setup base h st = (Ok tt, st1) ->
  smbfs_shares_config (configuration (self st1)) = Some (String c cs) ->
  path_exists h (String c cs) = true ->
  (0 <? smbfs_oversub_ratio (configuration (self st1)))%float = true ->
  (0 <? smbfs_used_ratio (configuration (self st1)))%float = true ->
  do_setup base h st
  = _ensure_shares_mounted base h
      {| self := {| configuration := configuration (self st1);
                    shares := ∅;
                    _mounted_shares := _mounted_shares (self st1);
                    img_suffix := img_suffix (self st1) |};
         trace := trace st1 |}.
Proof.
  intros Hsuper Hconf Hpath Hover Hused.
  unfold do_setup. unfold bind at 1. rewrite Hsuper.
  unfold bind at 1. unfold get_self at 1. unfold bind at 1. unfold ask at 1.
  cbv zeta. rewrite Hconf. rewrite Hpath. rewrite Hover. rewrite Hused.
  reflexivity.
Qed.

(** So is, in particular, every used ratio above 1. *)
Lemma do_setup_lets_above_one_through base h st st1 c cs :
  super_do_setup base h st = (Ok tt, st1) ->
  smbfs_shares_config (configuration (self st1)) = Some (String c cs) ->
  path_exists h (String c cs) = true ->
  (0 <? smbfs_oversub_ratio (configuration (self st1)))%float = true ->
  (1 <? smbfs_used_ratio (configuration (self st1)))%float = true ->
  do_setup base h st
  = _ensure_shares_mounted base h
      {| self := {| configuration := configuration (self st1);
                    shares := ∅;
                    _mounted_shares := _mounted_shares (self st1);
                    img_suffix := img_suffix (self st1) |};
         trace := trace st1 |}.
Proof.
  intros Hsuper Hconf Hpath Hover Hused.
  apply (do_setup_lets_positive_through _ _ _ _ _ _ Hsuper Hconf Hpath Hover).
  apply above_one_positive, Hused.
Qed.

(** C4 on the code: with a used ratio of 2, outside (0, 1], setup raises
    nothing and logs nothing, although the message of the test it passed
    says the ratio must be > 0 and <= 1.0; a used ratio of 0 is refused
    with that message. *)
Theorem do_setup_accepts_used_ratio_two :
  do_setup bare (host_of [] ["/etc/cinder/smbfs_shares"]) (driver (conf 2 r12) ∅ [])
  = (Ok tt, driver (conf 2 r12) ∅ []) /\
  eval (do_setup bare) (host_of [] ["/etc/cinder/smbfs_shares"])
       (driver (conf 0 r12) ∅ [])
  = Raise (SmbfsException
             (Msg "SMBFS config 'smbfs_used_ratio' invalid.  Must be > 0 and <= 1.0: %s"
                  [PyFloat 0])).
Proof. split; vm_compute; reflexivity. Qed.

End Setup.

(** ** Volume creation *)

Module Creation.

Import Smbfs Example.

(** The name [SmbfsException] is not bound in the module: the class is
    reached as [exception.SmbfsException] everywhere else. *)
Lemma SmbfsException_unbound h st :
  global_name "SmbfsException" h st = (Raise (NameError "SmbfsException"), st).
Proof. reflexivity. Qed.

(** A volume of a type other than vpc, vhd and vhdx, at a path where no
    file exists: the branch that means to refuse it stops on the unbound
    name, after the debug line and before any command. *)
Lemma unknown_type_stops_on_name base h st st1 volume path vt :
  local_path base volume h st = (Ok path, st1) ->
  path_exists h path = false ->
  Volume.volume_type volume = Some vt ->
  existsb (String.eqb (Volume.type_name vt)) ["vpc"; "vhd"; "vhdx"] = false ->
  _do_create_volume base volume h st
  = (Raise (NameError "SmbfsException"),
     record st1 [Log DEBUG (Msg "creating new volume at %s" [PyStr path])]).
Proof.
  intros Hpath Hnew Htype Hname.
  unfold _do_create_volume. unfold bind at 1. rewrite Hpath.
  cbv zeta. unfold bind at 1. unfold LOG at 1, emit at 1.
  unfold bind at 1. unfold ask at 1. rewrite Hnew. rewrite Htype. rewrite Hname.
  unfold bind at 1. unfold bind at 1. rewrite SmbfsException_unbound.
  reflexivity.
Qed.

(** C9 on the code: creating a volume of type [raw] where no file exists
    raises [NameError] for the name [SmbfsException], not the driver's
    exception for an invalid volume type; the only event is the debug
    line, so no command ran and no file was created. *)
Theorem do_create_volume_raw_type_name_error :
  _do_create_volume bare raw_volume (host_of [share_A] [])
    (driver (conf r095 r12) ∅ ["//srv/A"])
  = (Raise (NameError "SmbfsException"),
     record (driver (conf r095 r12) ∅ ["//srv/A"])
       [Log DEBUG (Msg "creating new volume at %s" [PyStr "/mnt/A/volume-1"])]).
Proof. vm_compute. reflexivity. Qed.

End Creation.

(** ** Faults of the capacity inspector *)

Module CapacityFaults.

Import Smbfs.

(** [map(float, l)] either parses every string or raises [ValueError], and
    leaves the state alone. *)
Lemma map_float_outcome h st l :
  (exists fs, map (py_float h) l = map Some fs /\ map_float l h st = (Ok fs, st)) \/
  ((forall fs, map (py_float h) l <> map Some fs) /\
   map_float l h st = (Raise ValueError, st)).
Proof.
  induction l as [|x l IH].
  - left. exists []. split; reflexivity.
  - assert (Hstep : map_float (x :: l) h st
                    = match py_float h x with
                      | Some f =>
                          match map_float l h st with
                          | (Ok fs, st') => (Ok (f :: fs), st')
                          | (Raise e, st') => (Raise e, st')
                          end
                      | None => (Raise ValueError, st)
                      end).
    { cbn [map_float]. unfold float_of. unfold bind, ask, ret, raise.
      destruct (py_float h x); [|reflexivity].
      destruct (map_float l h st) as [[fs|e] st']; reflexivity. }
    rewrite Hstep. cbn [map]. destruct (py_float h x) as [f|] eqn:Ex.
    + destruct IH as [(fs & Hfs & Hrun)|[Hno Hrun]]; rewrite Hrun.
      * left. exists (f :: fs). split; [by rewrite Hfs|reflexivity].
      * right. split; [|reflexivity].
        intros [|f' fs] [=]. by eapply Hno.
    + right. split; [|reflexivity]. by intros [|f' fs] [=].
Qed.

(** X1: when [stat] fails at the mount point, [_get_capacity_info] raises
    what [stat] raised, and [du] is never run. *)
Theorem stat_failure_propagates h st s e :
  execute h (stat_cmd (get_mount_point h s)) true = Raise e ->
  _get_capacity_info s h st
  = (Raise e, record st [Execute (stat_cmd (get_mount_point h s)) true]).
Proof.
  intros Hstat.
  unfold _get_capacity_info, _get_mount_point_for_share, _execute.
  unfold bind, ask, emit, lift, ret. cbn beta iota.
  fold (stat_cmd (get_mount_point h s)). rewrite Hstat. reflexivity.
Qed.

Lemma stat_failure_propagates_witness :
  _get_capacity_info "/a"
    (Scenario.host_with (Raise Scenario.failed) Scenario.du_ok (Ok tt) [])
    Scenario.state
  = (Raise Scenario.failed, record Scenario.state [Execute (stat_cmd "/mnt/a") true]).
Proof.
  apply (stat_failure_propagates
           (Scenario.host_with (Raise Scenario.failed) Scenario.du_ok (Ok tt) [])
           Scenario.state "/a" Scenario.failed).
  reflexivity.
Defined.

(** X2: when the output of [stat] is not exactly three numbers (a token
    that is no float, or too few or too many tokens), [_get_capacity_info]
    raises [ValueError], and [du] is never run. *)
Theorem stat_output_malformed h st s df err :
  execute h (stat_cmd (get_mount_point h s)) true = Ok (df, err) ->
  (forall a b c, map (py_float h) (Py.split df) <> [Some a; Some b; Some c]) ->
  _get_capacity_info s h st
  = (Raise ValueError, record st [Execute (stat_cmd (get_mount_point h s)) true]).
Proof.
  intros Hstat Hbad.
  unfold _get_capacity_info, _get_mount_point_for_share, _execute.
  unfold bind, ask, emit, lift, ret. cbn beta iota.
  fold (stat_cmd (get_mount_point h s)). rewrite Hstat.
  match goal with
  | |- context [map_float ?l h ?st'] =>
      destruct (map_float_outcome h st' l) as [(fs & Hfs & Hrun)|[_ Hrun]]
  end; rewrite Hrun; [|reflexivity].
  destruct fs as [|a [|b [|c [|d fs]]]]; try reflexivity.
  exfalso. by apply (Hbad a b c).
Qed.

Lemma stat_output_malformed_witness :
  _get_capacity_info "/a"
    (Scenario.host_with (Ok ("4096 26214400", "")) Scenario.du_ok (Ok tt) [])
    Scenario.state
  = (Raise ValueError, record Scenario.state [Execute (stat_cmd "/mnt/a") true]).
Proof.
  apply (stat_output_malformed
           (Scenario.host_with (Ok ("4096 26214400", "")) Scenario.du_ok (Ok tt) [])
           Scenario.state "/a" "4096 26214400" "").
  - reflexivity.
  - intros a b c. vm_compute. discriminate.
Defined.

(** X3: when [stat] printed its three numbers and [du] fails,
    [_get_capacity_info] raises what [du] raised. *)
Theorem du_failure_propagates h st s df err block_size blocks_total blocks_avail e :
  execute h (stat_cmd (get_mount_point h s)) true = Ok (df, err) ->
  map (py_float h) (Py.split df)
    = [Some block_size; Some blocks_total; Some blocks_avail] ->
  execute h (du_cmd (get_mount_point h s)) true = Raise e ->
  _get_capacity_info s h st
  = (Raise e, record st [Execute (stat_cmd (get_mount_point h s)) true;
                         Execute (du_cmd (get_mount_point h s)) true]).
Proof.
  intros Hstat Hdf Hdu.
  unfold _get_capacity_info, _get_mount_point_for_share, _execute.
  unfold bind, ask, emit, lift, ret. cbn beta iota.
  fold (stat_cmd (get_mount_point h s)). rewrite Hstat.
  rewrite (Capacity.map_float_parsed _ _ _ [block_size; blocks_total; blocks_avail] Hdf).
  cbn beta iota. fold (du_cmd (get_mount_point h s)). rewrite Hdu.
  unfold record. cbn [self trace]. rewrite <- app_assoc. reflexivity.
Qed.

Lemma du_failure_propagates_witness :
  _get_capacity_info "/a"
    (Scenario.host_with Scenario.stat_ok (Raise Scenario.failed) (Ok tt) [])
    Scenario.state
  = (Raise Scenario.failed,
     record Scenario.state [Execute (stat_cmd "/mnt/a") true;
                            Execute (du_cmd "/mnt/a") true]).
Proof.
  apply (du_failure_propagates
           (Scenario.host_with Scenario.stat_ok (Raise Scenario.failed) (Ok tt) [])
           Scenario.state "/a" "4096 26214400 13107200" ""
           4096%float 26214400%float 13107200%float Scenario.failed);
    vm_compute; reflexivity.
Defined.

(** X4: when [stat] printed its three numbers and [du] prints no leading
    number, [_get_capacity_info] raises: [IndexError] on an output without
    any token, [ValueError] on a first token that is no float. *)
Theorem du_output_malformed h st s df err block_size blocks_total blocks_avail du err' :
  execute h (stat_cmd (get_mount_point h s)) true = Ok (df, err) ->
  map (py_float h) (Py.split df)
    = [Some block_size; Some blocks_total; Some blocks_avail] ->
  execute h (du_cmd (get_mount_point h s)) true = Ok (du, err') ->
  head (Py.split du) ≫= py_float h = None ->
  eval (_get_capacity_info s) h st
  = Raise (match Py.split du with
           | [] => IndexError
           | _ :: _ => ValueError
           end).
Proof.
  intros Hstat Hdf Hdu Hhead.
  unfold eval, _get_capacity_info, _get_mount_point_for_share, _execute.
  unfold bind, ask, emit, lift, ret. cbn beta iota.
  fold (stat_cmd (get_mount_point h s)). rewrite Hstat.
  rewrite (Capacity.map_float_parsed _ _ _ [block_size; blocks_total; blocks_avail] Hdf).
  cbn beta iota. fold (du_cmd (get_mount_point h s)). rewrite Hdu.
  destruct (Py.split du) as [|tok rest]; [reflexivity|].
  cbn in Hhead. unfold float_of, bind, ask. rewrite Hhead. reflexivity.
Qed.

Lemma du_output_malformed_witness :
  eval (_get_capacity_info "/a")
    (Scenario.host_with Scenario.stat_ok (Ok ("du: cannot read", "")) (Ok tt) [])
    Scenario.state
  = Raise (match Py.split "du: cannot read" with
           | [] => IndexError
           | _ :: _ => ValueError
           end).
Proof.
  apply (du_output_malformed
           (Scenario.host_with Scenario.stat_ok (Ok ("du: cannot read", "")) (Ok tt) [])
           Scenario.state "/a" "4096 26214400 13107200" ""
           4096%float 26214400%float 13107200%float "du: cannot read" "");
    vm_compute; reflexivity.
Defined.

End CapacityFaults.

(** ** More on the eligibility predicate *)

Module EligibilityMore.

Import Smbfs FloatFacts.

(** The exact comparison with an integer is monotone in the integer. *)
Lemma float_le_int_mono (f : float) (m n : Z) :
  m <= n -> Py.float_le_int f m = true -> Py.float_le_int f n = true.
Proof.
  unfold Py.float_le_int. intros Hmn.
  destruct (Prim2SF f) as [s|s| |s mf e]; cbn [Py.SFcompare_Z]; try done.
  - destruct (Z.compare_spec 0 m); try discriminate;
      destruct (Z.compare_spec 0 n); try reflexivity; lia.
  - destruct (0 <=? e) eqn:He.
    + destruct (Z.compare_spec ((if s then Z.neg mf else Z.pos mf) * 2 ^ e) m);
        try discriminate;
        destruct (Z.compare_spec ((if s then Z.neg mf else Z.pos mf) * 2 ^ e) n);
        try reflexivity; lia.
    + assert (Hp : 0 < 2 ^ (- e)) by (apply Z.pow_pos_nonneg; lia).
      destruct (Z.compare_spec (if s then Z.neg mf else Z.pos mf) (m * 2 ^ (- e)));
        try discriminate;
        destruct (Z.compare_spec (if s then Z.neg mf else Z.pos mf) (n * 2 ^ (- e)));
        try reflexivity; nia.
Qed.

(** The capacity query that the predicate makes first. *)
Lemma answered h st s n b :
  eval (_is_share_eligible s n) h st = Ok b ->
  exists total_size total_available total_allocated,
    eval (_get_capacity_info s) h st
      = Ok (total_size, total_available, total_allocated).
Proof.
  intros Hb. destruct (Selector.answered_capacity h st n s b Hb) as [[[ts ta] al] Hc].
  by exists ts, ta, al.
Qed.

(** X5: when the capacity query of the share raises, the predicate raises
    the same exception and does nothing more. *)
Theorem capacity_fault_propagates h st s n e :
  eval (_get_capacity_info s) h st = Raise e ->
  _is_share_eligible s n h st = (Raise e, exec (_get_capacity_info s) h st).
Proof.
  unfold eval, exec. intros E.
  unfold _is_share_eligible. unfold bind at 1. unfold get_self at 1.
  unfold bind at 1. destruct (_get_capacity_info s h st) as [r st1].
  simpl in E. subst r. reflexivity.
Qed.

Lemma capacity_fault_propagates_witness :
  _is_share_eligible "/a" 1
    (Scenario.host_with (Raise Scenario.failed) Scenario.du_ok (Ok tt) [])
    Scenario.state
  = (Raise Scenario.failed,
     exec (_get_capacity_info "/a")
       (Scenario.host_with (Raise Scenario.failed) Scenario.du_ok (Ok tt) [])
       Scenario.state).
Proof.
  apply (capacity_fault_propagates
           (Scenario.host_with (Raise Scenario.failed) Scenario.du_ok (Ok tt) [])
           Scenario.state "/a" 1 Scenario.failed).
  reflexivity.
Defined.

(** X6: an accepting verdict records nothing beyond the capacity query; a
    rejecting verdict records exactly one debug line after it, about the
    share. *)
Theorem verdict_logging h st s n b :
  eval (_is_share_eligible s n) h st = Ok b ->
  if b then exec (_is_share_eligible s n) h st = exec (_get_capacity_info s) h st
  else exists why,
    exec (_is_share_eligible s n) h st
    = record (exec (_get_capacity_info s) h st) [Log DEBUG (Msg why [PyStr s])].
Proof.
  intros Hb. destruct (answered _ _ _ _ _ Hb) as (ts & ta & al & Hc).
  revert Hb. unfold eval at 1, exec at 1, exec at 2.
  rewrite (Eligibility.after_capacity_query _ _ _ n _ _ _ Hc). cbv zeta.
  unfold py_div. destruct (ts =? 0)%float; [discriminate|].
  unfold bind, ret, LOG, emit. cbn beta iota.
  destruct (_ <? _)%float.
  { intros [= <-]. by eexists. }
  destruct (Py.float_le_int _ _).
  { intros [= <-]. by eexists. }
  destruct (_ <=? _)%float.
  { intros [= <-]. by eexists. }
  intros [= <-]. reflexivity.
Qed.

Lemma verdict_logging_witness :
  exists why,
    exec (_is_share_eligible "//srv/big" 50) Example.big_host Example.big_state
    = record (exec (_get_capacity_info "//srv/big") Example.big_host Example.big_state)
        [Log DEBUG (Msg why [PyStr "//srv/big"])].
Proof.
  apply (verdict_logging Example.big_host Example.big_state "//srv/big" 50 false).
  vm_compute. reflexivity.
Defined.

(** Lowering the size keeps a share eligible. *)
Lemma eligible_mono h st s n m :
  m <= n -> eligible h st n s -> eligible h st m s.
Proof.
  intros Hmn Hn. destruct (answered _ _ _ _ _ Hn) as (ts & ta & al & Hc).
  revert Hn. unfold eligible, eval.
  rewrite (Eligibility.after_capacity_query _ _ _ n _ _ _ Hc).
  rewrite (Eligibility.after_capacity_query _ _ _ m _ _ _ Hc). cbv zeta.
  unfold py_div. destruct (ts =? 0)%float; [discriminate|].
  unfold bind, ret. cbn beta iota.
  destruct (_ <? _)%float; [discriminate|].
  destruct (Py.float_le_int _ (n * Py.GiB)) eqn:Hle; [discriminate|].
  destruct (Py.float_le_int _ (m * Py.GiB)) eqn:Hle'; [|done].
  rewrite (float_le_int_mono _ (m * Py.GiB) (n * Py.GiB)) in Hle;
    [discriminate| unfold Py.GiB; lia | exact Hle'].
Qed.

(** X7: eligibility is monotone in the requested size: a share eligible for
    a size is eligible for every smaller one. *)
Theorem eligible_for_smaller h st s n m :
  m <= n -> eligible h st n s -> eligible h st m s.
Proof. apply eligible_mono. Qed.

Lemma eligible_for_smaller_witness :
  eligible Example.big_host Example.big_state 7 "//srv/big".
Proof.
  apply (eligible_for_smaller Example.big_host Example.big_state "//srv/big" 30 7).
  - lia.
  - vm_compute. reflexivity.
Defined.

(** X8: for a non-negative size, a share whose allocation figure is a NaN
    is never eligible. *)
Theorem nan_allocation_not_eligible h st s n a :
  0 <= n -> allocated h st s a -> is_nan a = true -> ~ eligible h st n s.
Proof.
  intros Hn Ha Hnan He.
  rewrite (Eligibility.eligible_allocation_is_number h st n s a Hn He Ha) in Hnan.
  discriminate.
Qed.

Lemma nan_allocation_not_eligible_witness :
  ~ eligible Scenario.nan_host Scenario.state 1 "/a".
Proof.
  apply (nan_allocation_not_eligible Scenario.nan_host Scenario.state "/a" 1 nan).
  - lia.
  - exists 107374182400%float, 53687091200%float. vm_compute. reflexivity.
  - reflexivity.
Defined.

End EligibilityMore.

(** ** More on the share selector *)

Module SelectorMore.

Import Smbfs FloatFacts Selector.

Lemma find_share_propagates_fault_witness :
  eval (_find_share 1) Scenario.half_host Scenario.state = Raise Scenario.failed.
Proof.
  apply (find_share_propagates_fault Scenario.half_host Scenario.state 1
           ["/a"] "/b" [] Scenario.failed).
  - reflexivity.
  - intros x Hx. apply elem_of_cons in Hx as [->|Hx]; [|by apply elem_of_nil in Hx].
    exists true. vm_compute. reflexivity.
  - vm_compute. reflexivity.
Defined.

Section Loop.

Context (h : Host) (st : State) (n : Z).

(** A loop that ends well has checked every share of its list, and ends on
    the target it was entered with or on an eligible share of the list. *)
Lemma loop_result l : forall target rc t r st',
  _find_share_loop l n target rc h (at_trace st t) = (Ok r, st') ->
  (forall s, s ∈ l -> exists b, eval (_is_share_eligible s n) h st = Ok b) /\
  (r = target \/ exists s, r = Some s /\ s ∈ l /\ eligible h st n s).
Proof.
  induction l as [|x l IH]; intros target rc t r st' Hrun.
  - cbn in Hrun. injection Hrun as <- _. split; [|by left].
    intros s Hs. by apply elem_of_nil in Hs.
  - destruct (eligibility_run h st n x) as [evs Hx].
    destruct (eval (_is_share_eligible x n) h st) as [[|]|e] eqn:Hb.
    + destruct (answered_allocated h st n x Hb) as [a Ha].
      destruct (loop_take h st n x l target rc a Hb Ha) as [evs' Hstep].
      rewrite Hstep in Hrun.
      assert (Hnext : exists target' rc',
                 _find_share_loop l n target' rc' h (at_trace st (t ++ evs')) = (Ok r, st')
                 /\ (target' = target \/ target' = Some x)).
      { destruct target as [c|]; [destruct (a <? rc)%float|]; eauto 6. }
      destruct Hnext as (target' & rc' & Hrun' & Htarget).
      destruct (IH _ _ _ _ _ Hrun') as [Hans Hr]. split.
      * intros s Hs. apply elem_of_cons in Hs as [->|Hs]; [by exists true|by apply Hans].
      * destruct Hr as [->|(s & -> & Hs & He)].
        -- destruct Htarget as [->| ->]; [by left|].
           right. exists x. repeat split; [by left|done].
        -- right. exists s. repeat split; [by right|done].
    + destruct (loop_skip h st n x l target rc Hb) as [evs' Hstep].
      rewrite Hstep in Hrun. destruct (IH _ _ _ _ _ Hrun) as [Hans Hr]. split.
      * intros s Hs. apply elem_of_cons in Hs as [->|Hs]; [by exists false|by apply Hans].
      * destruct Hr as [->|(s & -> & Hs & He)]; [by left|].
        right. exists s. repeat split; [by right|done].
    + cbn [_find_share_loop] in Hrun. unfold bind at 1 in Hrun.
      rewrite Hx in Hrun. discriminate.
Qed.

(** Over shares that are all checked, the loop ends on a share as soon as
    it was entered with a target or meets an eligible share. *)
Lemma loop_succeeds l : forall target rc t,
  (forall s, s ∈ l -> exists b, eval (_is_share_eligible s n) h st = Ok b) ->
  is_Some target \/ (exists s, s ∈ l /\ eligible h st n s) ->
  exists r t',
    _find_share_loop l n target rc h (at_trace st t) = (Ok (Some r), at_trace st t').
Proof.
  induction l as [|x l IH]; intros target rc t Hans Hsome.
  - destruct Hsome as [[c ->]|(s & Hs & _)]; [by exists c, t|].
    by apply elem_of_nil in Hs.
  - assert (Hans' : forall s, s ∈ l ->
                      exists b, eval (_is_share_eligible s n) h st = Ok b).
    { intros s Hs. apply Hans. by right. }
    destruct (Hans x) as [[|] Hb]; [by left| |].
    + destruct (answered_allocated h st n x Hb) as [a Ha].
      destruct (loop_take h st n x l target rc a Hb Ha) as [evs Hstep].
      destruct target as [c|]; [destruct (a <? rc)%float|].
      * destruct (IH (Some x) a (t ++ evs)%list Hans') as (r & t' & Hrun); [by left; eexists|].
        exists r, t'. by rewrite Hstep.
      * destruct (IH (Some c) rc (t ++ evs)%list Hans') as (r & t' & Hrun); [by left; eexists|].
        exists r, t'. by rewrite Hstep.
      * destruct (IH (Some x) a (t ++ evs)%list Hans') as (r & t' & Hrun); [by left; eexists|].
        exists r, t'. by rewrite Hstep.
    + destruct (loop_skip h st n x l target rc Hb) as [evs Hstep].
      destruct (IH target rc (t ++ evs)%list Hans') as (r & t' & Hrun).
      { destruct Hsome as [Ht|(s & Hs & He)]; [by left|]. right. exists s.
        split; [|done]. apply elem_of_cons in Hs as [->|Hs]; [|done].
        unfold eligible in He. congruence. }
      exists r, t'. by rewrite Hstep.
Qed.

End Loop.

(** Whether the predicate answers at all does not depend on the size. *)
Lemma answers_for_every_size h st s n m b :
  eval (_is_share_eligible s n) h st = Ok b ->
  exists b', eval (_is_share_eligible s m) h st = Ok b'.
Proof.
  intros Hb. destruct (EligibilityMore.answered _ _ _ _ _ Hb) as (ts & ta & al & Hc).
  revert Hb. unfold eval.
  rewrite (Eligibility.after_capacity_query _ _ _ n _ _ _ Hc).
  rewrite (Eligibility.after_capacity_query _ _ _ m _ _ _ Hc). cbv zeta.
  unfold py_div. destruct (ts =? 0)%float; [discriminate|].
  unfold bind, ret. cbn beta iota. intros _.
  destruct (_ <? _)%float; [by eexists|].
  destruct (Py.float_le_int _ _); [by eexists|].
  destruct (_ <=? _)%float; by eexists.
Qed.

(** What [_find_share] returns once its loop has returned. *)
Lemma find_share_after_loop h st n :
  _mounted_shares (self st) <> [] ->
  _find_share n h st
  = match _find_share_loop (_mounted_shares (self st)) n None 0%float h
            (at_trace st (trace st)) with
    | (Ok (Some r), st') =>
        (Ok r, record st' [Log DEBUG (Msg "Selected %s as target smbfs share." [PyStr r])])
    | (Ok None, st') => (Raise (SmbfsNoSuitableShareFound n), st')
    | (Raise e, st') => (Raise e, st')
    end.
Proof.
  intros Hne. unfold _find_share. unfold bind at 1. unfold get_self at 1.
  destruct (_mounted_shares (self st)) as [|s0 l0] eqn:El; [done|].
  unfold bind at 1. unfold at_trace. destruct st as [d t0]. cbn [self trace] in *.
  destruct (_find_share_loop (s0 :: l0) n None 0%float h _) as [[[r|]|e] st'];
    reflexivity.
Qed.

(** What a returned share tells. *)
Lemma find_share_result h st n r :
  eval (_find_share n) h st = Ok r ->
  r ∈ _mounted_shares (self st) /\ eligible h st n r /\
  forall s, s ∈ _mounted_shares (self st) ->
            exists b, eval (_is_share_eligible s n) h st = Ok b.
Proof.
  unfold eval. intros Hr.
  assert (Hne : _mounted_shares (self st) <> []).
  { intros El. rewrite (find_share_no_shares_mounted h st n El) in Hr. discriminate. }
  rewrite (find_share_after_loop h st n Hne) in Hr.
  destruct (_find_share_loop _ n None 0%float h _) as [[[r'|]|e] st'] eqn:Hrun;
    try discriminate.
  simpl in Hr. injection Hr as ->.
  destruct (loop_result h st n _ _ _ _ _ _ Hrun) as [Hans [[=]|(s & [= ->] & Hs & He)]].
  done.
Qed.

(** X10: a share that [_find_share] returns is one of the mounted shares
    and passes the eligibility predicate, and by then every mounted share
    has been checked without fault. *)
Theorem find_share_sound h st n r :
  eval (_find_share n) h st = Ok r ->
  r ∈ _mounted_shares (self st) /\ eligible h st n r /\
  forall s, s ∈ _mounted_shares (self st) ->
            exists b, eval (_is_share_eligible s n) h st = Ok b.
Proof. apply find_share_result. Qed.

Lemma find_share_sound_witness :
  "//srv/B" ∈ _mounted_shares (self Example.three_state) /\
  eligible Example.three_host Example.three_state 1 "//srv/B" /\
  forall s, s ∈ _mounted_shares (self Example.three_state) ->
            exists b, eval (_is_share_eligible s 1) Example.three_host
                           Example.three_state = Ok b.
Proof.
  apply (find_share_sound Example.three_host Example.three_state 1 "//srv/B").
  vm_compute. reflexivity.
Defined.

(** X11: when [_find_share] returns a share for a size, it returns a share
    for every smaller size. *)
Theorem find_share_for_smaller h st n m r :
  m <= n -> eval (_find_share n) h st = Ok r ->
  exists r', eval (_find_share m) h st = Ok r'.
Proof.
  intros Hmn Hr. destruct (find_share_result h st n r Hr) as (Hin & He & Hans).
  assert (Hne : _mounted_shares (self st) <> []).
  { intros El. rewrite El in Hin. by apply elem_of_nil in Hin. }
  destruct (loop_succeeds h st m (_mounted_shares (self st)) None 0%float (trace st))
    as (r' & t' & Hrun).
  - intros s Hs. destruct (Hans s Hs) as [b Hb].
    by apply (answers_for_every_size h st s n m b).
  - right. exists r. split; [done|].
    by apply (EligibilityMore.eligible_mono h st r n m).
  - exists r'. unfold eval. rewrite (find_share_after_loop h st m Hne).
    rewrite Hrun. reflexivity.
Qed.

Lemma find_share_for_smaller_witness :
  exists r', eval (_find_share 0) Example.three_host Example.three_state = Ok r'.
Proof.
  apply (find_share_for_smaller Example.three_host Example.three_state 1 0 "//srv/B").
  - lia.
  - vm_compute. reflexivity.
Defined.

End SelectorMore.

(** ** Inspection is read-only *)

Module ReadOnly.

Import Smbfs.

Section Confined.

Context (P : event -> Prop) (h : Host) (d : SmbfsDriver).

Lemma confined_ret {A} (a : A) : confined P h d (ret a).
Proof.
  exists (Ok a), []. split; [constructor|]. intros t. unfold ret. by rewrite app_nil_r.
Qed.

Lemma confined_raise {A} (e : exn) : confined P h d (@raise A e).
Proof.
  exists (Raise e), []. split; [constructor|]. intros t. unfold raise.
  by rewrite app_nil_r.
Qed.

Lemma confined_lift {A} (r : result A) : confined P h d (lift r).
Proof.
  exists r, []. split; [constructor|]. intros t. unfold lift. by rewrite app_nil_r.
Qed.

Lemma confined_emit (e : event) : P e -> confined P h d (emit e).
Proof. intros He. exists (Ok tt), [e]. split; [by repeat constructor|]. done. Qed.

Lemma confined_bind {A B} (m : M A) (k : A -> M B) :
  confined P h d m -> (forall a, confined P h d (k a)) -> confined P h d (bind m k).
Proof.
  intros (r & evs & HP & Hm) Hk. destruct r as [a|e].
  - destruct (Hk a) as (r' & evs' & HP' & Hka). exists r', (evs ++ evs')%list.
    split; [by apply Forall_app|]. intros t.
    unfold bind. rewrite Hm. rewrite Hka. by rewrite app_assoc.
  - exists (Raise e), evs. split; [done|]. intros t. unfold bind. by rewrite Hm.
Qed.

(** A silent step with a known result. *)
Lemma confined_bind_silent {A B} (m : M A) (k : A -> M B) (a : A) :
  (forall t, m h {| self := d; trace := t |} = (Ok a, {| self := d; trace := t |})) ->
  confined P h d (k a) ->
  confined P h d (bind m k).
Proof.
  intros Hm (r & evs & HP & Hk). exists r, evs. split; [done|]. intros t.
  unfold bind. rewrite Hm. apply Hk.
Qed.

Lemma confined_float_of s : confined P h d (float_of s).
Proof.
  unfold float_of. apply (confined_bind_silent _ _ h); [done|].
  destruct (py_float h s); [apply confined_ret|apply confined_raise].
Qed.

Lemma confined_py_div x y : confined P h d (py_div x y).
Proof.
  unfold py_div. destruct (y =? 0)%float; [apply confined_raise|apply confined_ret].
Qed.

Lemma confined_execute cmd root :
  P (Execute cmd root) -> confined P h d (_execute cmd root).
Proof.
  intros Hc. unfold _execute. apply confined_bind; [by apply confined_emit|intros _].
  apply (confined_bind_silent _ _ h); [done|]. apply confined_lift.
Qed.

Lemma confined_map_float l : confined P h d (map_float l).
Proof.
  induction l as [|s l IH]; cbn [map_float].
  - apply confined_ret.
  - apply confined_bind; [apply confined_float_of|intros f].
    apply confined_bind; [exact IH|intros fs]. apply confined_ret.
Qed.

Lemma confined_get_capacity_info s :
  P (Execute (stat_cmd (get_mount_point h s)) true) ->
  P (Execute (du_cmd (get_mount_point h s)) true) ->
  confined P h d (_get_capacity_info s).
Proof.
  intros Hstat Hdu. unfold _get_capacity_info.
  apply (confined_bind_silent _ _ (get_mount_point h s)); [done|].
  apply confined_bind; [by apply confined_execute|intros [df err]].
  apply confined_bind; [apply confined_map_float|intros fs].
  destruct fs as [|a [|b [|c [|x fs]]]]; try apply confined_raise.
  apply confined_bind; [by apply confined_execute|intros [du err']].
  destruct (Py.split du) as [|tok rest]; [apply confined_raise|].
  apply confined_bind; [apply confined_float_of|intros al]. apply confined_ret.
Qed.

Hypothesis debug_lines : forall m, P (Log DEBUG m).

Lemma confined_debug m {A} (a : A) : confined P h d (LOG DEBUG m;; ret a).
Proof.
  apply confined_bind; [apply confined_emit, debug_lines|intros _]. apply confined_ret.
Qed.

Lemma confined_is_share_eligible s n :
  P (Execute (stat_cmd (get_mount_point h s)) true) ->
  P (Execute (du_cmd (get_mount_point h s)) true) ->
  confined P h d (_is_share_eligible s n).
Proof.
  intros Hstat Hdu. unfold _is_share_eligible.
  apply (confined_bind_silent _ _ d); [done|]. cbv zeta.
  apply confined_bind; [by apply confined_get_capacity_info|intros [[ts ta] al]].
  apply confined_bind; [apply confined_py_div|intros used].
  destruct (_ <? _)%float; [apply confined_debug|].
  destruct (Py.float_le_int _ _); [apply confined_debug|].
  apply confined_bind; [apply confined_py_div|intros reserved].
  destruct (_ <=? _)%float; [apply confined_debug|apply confined_ret].
Qed.

Lemma confined_find_share_loop l n : forall target rc,
  (forall s, s ∈ l -> P (Execute (stat_cmd (get_mount_point h s)) true) /\
                      P (Execute (du_cmd (get_mount_point h s)) true)) ->
  confined P h d (_find_share_loop l n target rc).
Proof.
  induction l as [|s l IH]; intros target rc Hl; cbn [_find_share_loop].
  - apply confined_ret.
  - assert (Hl' : forall x, x ∈ l ->
                    P (Execute (stat_cmd (get_mount_point h x)) true) /\
                    P (Execute (du_cmd (get_mount_point h x)) true)).
    { intros x Hx. apply Hl. by right. }
    destruct (Hl s) as [Hstat Hdu]; [by left|].
    apply confined_bind; [by apply confined_is_share_eligible|intros b].
    destruct (negb b); [by apply IH|].
    apply confined_bind; [by apply confined_get_capacity_info|intros [[ts ta] al]].
    destruct target as [c|]; [destruct (al <? rc)%float|]; by apply IH.
Qed.

Lemma confined_find_share n :
  (forall s, s ∈ _mounted_shares d ->
             P (Execute (stat_cmd (get_mount_point h s)) true) /\
             P (Execute (du_cmd (get_mount_point h s)) true)) ->
  confined P h d (_find_share n).
Proof.
  intros Hl. unfold _find_share.
  apply (confined_bind_silent _ _ d); [done|].
  destruct (_mounted_shares d) as [|s0 l0] eqn:El; [apply confined_raise|].
  apply confined_bind; [by apply confined_find_share_loop|intros [r|]].
  - apply confined_debug.
  - apply confined_raise.
Qed.

End Confined.

Lemma confined_exec {A} P (m : M A) h st :
  confined P h (self st) m ->
  exists evs, exec m h st = record st evs /\ Forall P evs.
Proof.
  intros (r & evs & HP & Hm). exists evs. split; [|done].
  unfold exec, record. destruct st as [d t]. cbn [self trace] in *. by rewrite Hm.
Qed.

(** X12: checking a share for eligibility leaves [self] as it was, and all
    it records is [stat] and [du] at the mount point of that share, run as
    root, and debug lines: it mounts nothing and runs no other command. *)
Theorem is_share_eligible_only_inspects h st s n :
  exists evs,
    exec (_is_share_eligible s n) h st = record st evs /\
    Forall (inspection_event h [s]) evs.
Proof.
  apply confined_exec. apply confined_is_share_eligible.
  - intros m. right. by exists m.
  - left. exists s. split; [by left|by left].
  - left. exists s. split; [by left|by right].
Qed.

(** X13: selecting a share leaves [self] as it was, whatever the outcome,
    and all it records is [stat] and [du] at the mount points of the
    mounted shares, run as root, and debug lines. *)
Theorem find_share_only_inspects h st n :
  exists evs,
    exec (_find_share n) h st = record st evs /\
    Forall (inspection_event h (_mounted_shares (self st))) evs.
Proof.
  apply confined_exec. apply confined_find_share.
  - intros m. right. by exists m.
  - intros s Hs. split; left; exists s; (split; [done|]); [by left|by right].
Qed.

End ReadOnly.

(** ** More on setup *)

Module SetupMore.

Import Smbfs FloatFacts.

(** What is at most zero is not above zero, and is at most one. *)
Lemma nonpositive_fires (u : float) :
  (u <=? 0)%float = true -> negb (0 <? u)%float && (u <=? 1)%float = true.
Proof.
  rewrite !leb_spec. rewrite ltb_spec. unfold SFleb, SFltb.
  change (Prim2SF 0) with (S754_zero false).
  change (Prim2SF 1) with (S754_finite false 4503599627370496 (-52)).
  destruct (Prim2SF u) as [s|s| |s m e]; try destruct s;
    cbn [SFcompare]; intros H; try discriminate H; reflexivity.
Qed.

Section Base.

Variable base : RemoteFsDriver.

(** X14: with no shares file configured (the option unset or empty),
    [do_setup] logs a warning and raises [SmbfsException]; the shares map
    is not touched and nothing is mounted. *)
Theorem do_setup_without_config h st st1 :
  super_do_setup base h st = (Ok tt, st1) ->
  smbfs_shares_config (configuration (self st1)) = None \/
  smbfs_shares_config (configuration (self st1)) = Some "" ->
  do_setup base h st
  = (Raise (SmbfsException (Msg "There's no SMBFS config file configured (%s)"
                                [PyStr "smbfs_shares_config"])),
     record st1 [Log WARN (Msg "There's no SMBFS config file configured (%s)"
                               [PyStr "smbfs_shares_config"])]).
Proof.
  intros Hsuper Hconf.
  unfold do_setup. unfold bind at 1. rewrite Hsuper.
  unfold bind at 1. unfold get_self at 1. unfold bind at 1. unfold ask at 1.
  cbv zeta. destruct Hconf as [-> | ->]; reflexivity.
Qed.

(** X15: with a shares file configured that does not exist, [do_setup]
    logs a warning and raises [SmbfsException] naming the file. *)
Theorem do_setup_config_file_absent h st st1 c cs :
  super_do_setup base h st = (Ok tt, st1) ->
  smbfs_shares_config (configuration (self st1)) = Some (String c cs) ->
  path_exists h (String c cs) = false ->
  do_setup base h st
  = (Raise (SmbfsException (Msg "SMBFS config file at %(config)s doesn't exist"
                                [PyStr (String c cs)])),
     record st1 [Log WARN (Msg "SMBFS config file at %(config)s doesn't exist"
                               [PyStr (String c cs)])]).
Proof.
  intros Hsuper Hconf Hpath.
  unfold do_setup. unfold bind at 1. rewrite Hsuper.
  unfold bind at 1. unfold get_self at 1. unfold bind at 1. unfold ask at 1.
  cbv zeta. rewrite Hconf. rewrite Hpath. reflexivity.
Qed.

(** X16: with an existing shares file and an oversubscription ratio that
    is not above zero (zero, negative or NaN), [do_setup] logs an error and
    raises [SmbfsException] carrying the ratio; the used ratio is not
    looked at. *)
Theorem do_setup_rejects_oversub_ratio h st st1 c cs :
  super_do_setup base h st = (Ok tt, st1) ->
  smbfs_shares_config (configuration (self st1)) = Some (String c cs) ->
  path_exists h (String c cs) = true ->
  (0 <? smbfs_oversub_ratio (configuration (self st1)))%float = false ->
  do_setup base h st
  = (Raise (SmbfsException
              (Msg "SMBFS config 'smbfs_oversub_ratio' invalid.  Must be > 0: %s"
                   [PyFloat (smbfs_oversub_ratio (configuration (self st1)))])),
     record st1
       [Log ERROR (Msg "SMBFS config 'smbfs_oversub_ratio' invalid.  Must be > 0: %s"
                       [PyFloat (smbfs_oversub_ratio (configuration (self st1)))])]).
Proof.
  intros Hsuper Hconf Hpath Hover.
  unfold do_setup. unfold bind at 1. rewrite Hsuper.
  unfold bind at 1. unfold get_self at 1. unfold bind at 1. unfold ask at 1.
  cbv zeta. rewrite Hconf. rewrite Hpath. rewrite Hover. reflexivity.
Qed.

(** X17: with an existing shares file and a valid oversubscription ratio,
    a used ratio that is at most zero makes [do_setup] log an error and
    raise [SmbfsException] carrying the ratio, before the shares map is
    touched. *)
Theorem do_setup_rejects_nonpositive_used_ratio h st st1 c cs :
  super_do_setup base h st = (Ok tt, st1) ->
  smbfs_shares_config (configuration (self st1)) = Some (String c cs) ->
  path_exists h (String c cs) = true ->
  (0 <? smbfs_oversub_ratio (configuration (self st1)))%float = true ->
  (smbfs_used_ratio (configuration (self st1)) <=? 0)%float = true ->
  do_setup base h st
  = (Raise (SmbfsException
              (Msg "SMBFS config 'smbfs_used_ratio' invalid.  Must be > 0 and <= 1.0: %s"
                   [PyFloat (smbfs_used_ratio (configuration (self st1)))])),
     record st1
       [Log ERROR
          (Msg "SMBFS config 'smbfs_used_ratio' invalid.  Must be > 0 and <= 1.0: %s"
               [PyFloat (smbfs_used_ratio (configuration (self st1)))])]).
Proof.
  intros Hsuper Hconf Hpath Hover Hused.
  unfold do_setup. unfold bind at 1. rewrite Hsuper.
  unfold bind at 1. unfold get_self at 1. unfold bind at 1. unfold ask at 1.
  cbv zeta. rewrite Hconf. rewrite Hpath. rewrite Hover. cbn [negb].
  rewrite (nonpositive_fires _ Hused). reflexivity.
Qed.

(** X18: with an existing shares file, an oversubscription ratio above
    zero and a used ratio above zero, [do_setup] logs nothing, empties the
    shares map and hands over to [_ensure_shares_mounted], whose outcome is
    its own. *)
Theorem do_setup_clears_shares_then_mounts h st st1 c cs :
  super_do_setup base h st = (Ok tt, st1) ->
  smbfs_shares_config (configuration (self st1)) = Some (String c cs) ->
  path_exists h (String c cs) = true ->
  (0 <? smbfs_oversub_ratio (configuration (self st1)))%float = true ->
  (0 <? smbfs_used_ratio (configuration (self st1)))%float = true ->
  do_setup base h st
  = _ensure_shares_mounted base h
      {| self := without_shares (self st1); trace := trace st1 |}.
Proof. apply Setup.do_setup_lets_positive_through. Qed.

End Base.

Lemma do_setup_without_config_witness :
  do_setup Example.bare Scenario.setup_host
    (Scenario.setup_state None Example.r095 Example.r12)
  = (Raise (SmbfsException (Msg "There's no SMBFS config file configured (%s)"
                                [PyStr "smbfs_shares_config"])),
     record (Scenario.setup_state None Example.r095 Example.r12)
       [Log WARN (Msg "There's no SMBFS config file configured (%s)"
                      [PyStr "smbfs_shares_config"])]).
Proof.
  apply (do_setup_without_config Example.bare Scenario.setup_host
           (Scenario.setup_state None Example.r095 Example.r12)
           (Scenario.setup_state None Example.r095 Example.r12)).
  - reflexivity.
  - left. reflexivity.
Defined.

Lemma do_setup_config_file_absent_witness :
  do_setup Example.bare Scenario.setup_host
    (Scenario.setup_state (Some "/nowhere") Example.r095 Example.r12)
  = (Raise (SmbfsException (Msg "SMBFS config file at %(config)s doesn't exist"
                                [PyStr "/nowhere"])),
     record (Scenario.setup_state (Some "/nowhere") Example.r095 Example.r12)
       [Log WARN (Msg "SMBFS config file at %(config)s doesn't exist"
                      [PyStr "/nowhere"])]).
Proof.
  apply (do_setup_config_file_absent Example.bare Scenario.setup_host
           (Scenario.setup_state (Some "/nowhere") Example.r095 Example.r12)
           (Scenario.setup_state (Some "/nowhere") Example.r095 Example.r12) "/"%char "nowhere");
    reflexivity.
Defined.

Lemma do_setup_rejects_oversub_ratio_witness :
  do_setup Example.bare Scenario.setup_host
    (Scenario.setup_state (Some "/etc/cinder/smbfs_shares") Example.r095 nan)
  = (Raise (SmbfsException
              (Msg "SMBFS config 'smbfs_oversub_ratio' invalid.  Must be > 0: %s"
                   [PyFloat nan])),
     record (Scenario.setup_state (Some "/etc/cinder/smbfs_shares") Example.r095 nan)
       [Log ERROR (Msg "SMBFS config 'smbfs_oversub_ratio' invalid.  Must be > 0: %s"
                       [PyFloat nan])]).
Proof.
  apply (do_setup_rejects_oversub_ratio Example.bare Scenario.setup_host
           (Scenario.setup_state (Some "/etc/cinder/smbfs_shares") Example.r095 nan)
           (Scenario.setup_state (Some "/etc/cinder/smbfs_shares") Example.r095 nan) "/"%char "etc/cinder/smbfs_shares");
    reflexivity.
Defined.

Lemma do_setup_rejects_nonpositive_used_ratio_witness :
  do_setup Example.bare Scenario.setup_host
    (Scenario.setup_state (Some "/etc/cinder/smbfs_shares") (-1) Example.r12)
  = (Raise (SmbfsException
              (Msg "SMBFS config 'smbfs_used_ratio' invalid.  Must be > 0 and <= 1.0: %s"
                   [PyFloat (-1)])),
     record (Scenario.setup_state (Some "/etc/cinder/smbfs_shares") (-1) Example.r12)
       [Log ERROR
          (Msg "SMBFS config 'smbfs_used_ratio' invalid.  Must be > 0 and <= 1.0: %s"
               [PyFloat (-1)])]).
Proof.
  apply (do_setup_rejects_nonpositive_used_ratio Example.bare Scenario.setup_host
           (Scenario.setup_state (Some "/etc/cinder/smbfs_shares") (-1) Example.r12)
           (Scenario.setup_state (Some "/etc/cinder/smbfs_shares") (-1) Example.r12) "/"%char "etc/cinder/smbfs_shares");
    reflexivity.
Defined.

Lemma do_setup_clears_shares_then_mounts_witness :
  do_setup Example.bare Scenario.setup_host
    (Scenario.setup_state (Some "/etc/cinder/smbfs_shares") Example.r095 Example.r12)
  = _ensure_shares_mounted Example.bare Scenario.setup_host
      {| self := without_shares
                   (self (Scenario.setup_state (Some "/etc/cinder/smbfs_shares")
                            Example.r095 Example.r12));
         trace := [] |}.
Proof.
  apply (do_setup_clears_shares_then_mounts Example.bare Scenario.setup_host
           (Scenario.setup_state (Some "/etc/cinder/smbfs_shares")
              Example.r095 Example.r12)
           (Scenario.setup_state (Some "/etc/cinder/smbfs_shares")
              Example.r095 Example.r12)
           "/"%char "etc/cinder/smbfs_shares");
    reflexivity.
Defined.

End SetupMore.

(** ** Deleting a volume *)

Module Deletion.

Import Smbfs.

Section Base.

Variable base : RemoteFsDriver.

(** X19: a volume without a provider location (unset or empty) is skipped:
    [delete_volume] logs one warning naming the volume and returns; it
    mounts nothing and removes nothing. *)
Theorem delete_without_location h st volume :
  Volume.provider_location volume = None \/
  Volume.provider_location volume = Some "" ->
  delete_volume base volume h st
  = (Ok tt,
     record st
       [Log WARN (Msg "Volume %s does not have provider_location specified, skipping"
                      [PyStr (Volume.name volume)])]).
Proof.
  intros Hloc. unfold delete_volume. destruct Hloc as [-> | ->]; reflexivity.
Qed.

(** What [delete_volume] does up to the mount. *)
Lemma delete_after_mount h st volume c cs :
  Volume.provider_location volume = Some (String c cs) ->
  exists mnt_flags,
    delete_volume base volume h st
    = match client_mount h (String c cs) mnt_flags with
      | Ok _ =>
          (let* mounted_path := local_path base volume in
           _execute ["rm"; "-f"; mounted_path] true;;
           ret tt) h
            (record st [Log DEBUG (Msg ">>>>%r" [PyDict (shares (self st))]);
                        Log DEBUG (Msg ">>>>%r" [PyStr (String c cs)]);
                        Mount (String c cs) mnt_flags])
      | Raise e =>
          (Raise e,
           record st [Log DEBUG (Msg ">>>>%r" [PyDict (shares (self st))]);
                      Log DEBUG (Msg ">>>>%r" [PyStr (String c cs)]);
                      Mount (String c cs) mnt_flags])
      end.
Proof.
  intros Hloc.
  exists (match shares (self st) !! String c cs with
          | Some (Some options) => Py.split options
          | _ => []
          end).
  unfold delete_volume. rewrite Hloc. unfold bind at 1.
  unfold _ensure_share_mounted, LOG, bind, get_self, emit, ask, lift.
  cbn beta iota. unfold record. cbn [self trace]. rewrite <- !app_assoc.
  cbn [app]. destruct (client_mount h _ _) as [[]|e]; reflexivity.
Qed.

(** X20: when the share of the volume cannot be mounted, [delete_volume]
    raises what the mount raised, right after the mount request: no
    command is run, so nothing is removed. *)
Theorem delete_on_unmountable_share h st volume c cs e :
  Volume.provider_location volume = Some (String c cs) ->
  (forall flags, client_mount h (String c cs) flags = Raise e) ->
  exists mnt_flags,
    delete_volume base volume h st
    = (Raise e,
       record st [Log DEBUG (Msg ">>>>%r" [PyDict (shares (self st))]);
                  Log DEBUG (Msg ">>>>%r" [PyStr (String c cs)]);
                  Mount (String c cs) mnt_flags]).
Proof.
  intros Hloc Hmount. destruct (delete_after_mount h st volume c cs Hloc) as [fl Hrun].
  exists fl. rewrite Hrun. rewrite Hmount. reflexivity.
Qed.

(** X21: when the share of the volume mounts and the volume's path is
    found, [delete_volume] runs [rm -f] on that path as root, after the
    mount request, and ends as [rm] does. *)
Theorem delete_removes_mounted_path h st volume c cs path :
  Volume.provider_location volume = Some (String c cs) ->
  (forall flags, client_mount h (String c cs) flags = Ok tt) ->
  (forall st', local_path base volume h st' = (Ok path, st')) ->
  exists mnt_flags,
    delete_volume base volume h st
    = (match execute h ["rm"; "-f"; path] true with
       | Ok _ => Ok tt
       | Raise e => Raise e
       end,
       record st [Log DEBUG (Msg ">>>>%r" [PyDict (shares (self st))]);
                  Log DEBUG (Msg ">>>>%r" [PyStr (String c cs)]);
                  Mount (String c cs) mnt_flags;
                  Execute ["rm"; "-f"; path] true]).
Proof.
  intros Hloc Hmount Hpath.
  destruct (delete_after_mount h st volume c cs Hloc) as [fl Hrun].
  exists fl. rewrite Hrun. rewrite Hmount.
  unfold bind at 1. rewrite Hpath.
  unfold _execute, bind, emit, ask, lift, ret, record. cbn beta iota.
  cbn [self trace]. rewrite <- !app_assoc. cbn [app].
  destruct (execute h _ true) as [[out err]|e']; reflexivity.
Qed.

End Base.

Lemma delete_without_location_witness :
  delete_volume Example.bare (Scenario.volume None None)
    Scenario.sound_host Scenario.state
  = (Ok tt,
     record Scenario.state
       [Log WARN (Msg "Volume %s does not have provider_location specified, skipping"
                      [PyStr (Volume.name (Scenario.volume None None))])]).
Proof.
  apply (delete_without_location Example.bare Scenario.sound_host Scenario.state
           (Scenario.volume None None)).
  left. reflexivity.
Defined.

Lemma delete_on_unmountable_share_witness :
  exists mnt_flags,
    delete_volume Example.bare (Scenario.volume (Some "/a") None)
      (Scenario.host_with Scenario.stat_ok Scenario.du_ok (Raise Scenario.failed) [])
      Scenario.state
    = (Raise Scenario.failed,
       record Scenario.state
         [Log DEBUG (Msg ">>>>%r" [PyDict (shares (self Scenario.state))]);
          Log DEBUG (Msg ">>>>%r" [PyStr "/a"]);
          Mount "/a" mnt_flags]).
Proof.
  apply (delete_on_unmountable_share Example.bare
           (Scenario.host_with Scenario.stat_ok Scenario.du_ok
              (Raise Scenario.failed) [])
           Scenario.state (Scenario.volume (Some "/a") None) "/"%char "a"
           Scenario.failed).
  - reflexivity.
  - intros flags. reflexivity.
Defined.

Lemma delete_removes_mounted_path_witness :
  exists mnt_flags,
    delete_volume Example.bare (Scenario.volume (Some "/a") None)
      Scenario.sound_host Scenario.state
    = (match execute Scenario.sound_host ["rm"; "-f"; "/mnt/a/volume-1"] true with
       | Ok _ => Ok tt
       | Raise e => Raise e
       end,
       record Scenario.state
         [Log DEBUG (Msg ">>>>%r" [PyDict (shares (self Scenario.state))]);
          Log DEBUG (Msg ">>>>%r" [PyStr "/a"]);
          Mount "/a" mnt_flags;
          Execute ["rm"; "-f"; "/mnt/a/volume-1"] true]).
Proof.
  apply (delete_removes_mounted_path Example.bare Scenario.sound_host Scenario.state
           (Scenario.volume (Some "/a") None) "/"%char "a" "/mnt/a/volume-1").
  - reflexivity.
  - intros flags. reflexivity.
  - intros st'. reflexivity.
Defined.

End Deletion.

(** ** More on volume creation *)

Module CreationMore.

Import Smbfs.

Lemma vpc_family_member nm :
  vpc_family nm -> existsb (String.eqb nm) ["vpc"; "vhd"; "vhdx"] = true.
Proof. intros [-> | [-> | ->]]; reflexivity. Qed.

Section Base.

Variable base : RemoteFsDriver.

(** X22: when a file already exists at the volume's path,
    [_do_create_volume] logs an error and raises [InvalidVolume] naming the
    path, whatever the volume type: no command is run and the permissions
    are not touched. *)
Theorem create_refuses_existing_path h st st1 volume path :
  local_path base volume h st = (Ok path, st1) ->
  path_exists h path = true ->
  _do_create_volume base volume h st
  = (Raise (InvalidVolume (Msg "file already exists at %s" [PyStr path])),
     record st1 [Log DEBUG (Msg "creating new volume at %s" [PyStr path]);
                 Log ERROR (Msg "file already exists at %s" [PyStr path])]).
Proof.
  intros Hpath Hold.
  unfold _do_create_volume. unfold bind at 1. rewrite Hpath.
  cbv zeta. unfold bind at 1. unfold LOG at 1, emit at 1.
  unfold bind at 1. unfold ask at 1. rewrite Hold.
  unfold bind, LOG, emit, raise, record. cbn [self trace].
  rewrite <- app_assoc. reflexivity.
Qed.

(** X23: for a volume of type vpc, vhd or vhdx at a free path,
    [_do_create_volume] runs [qemu-img create -f vpc] on the path with the
    size in bytes, as root; when that succeeds it goes on to set the
    permissions of the path, and when it fails it raises what [qemu-img]
    raised without touching the permissions. *)
Theorem create_vpc_family_volume h st st1 volume path vt :
  local_path base volume h st = (Ok path, st1) ->
  path_exists h path = false ->
  Volume.volume_type volume = Some vt ->
  vpc_family (Volume.type_name vt) ->
  _do_create_volume base volume h st
  = match execute h (qemu_img_cmd path (Volume.size volume)) true with
    | Ok _ =>
        _set_rw_permissions_for_all base path h
          (record st1 [Log DEBUG (Msg "creating new volume at %s" [PyStr path]);
                       Execute (qemu_img_cmd path (Volume.size volume)) true])
    | Raise e =>
        (Raise e,
         record st1 [Log DEBUG (Msg "creating new volume at %s" [PyStr path]);
                     Execute (qemu_img_cmd path (Volume.size volume)) true])
    end.
Proof.
  intros Hpath Hnew Htype Hname.
  unfold _do_create_volume. unfold bind at 1. rewrite Hpath.
  cbv zeta. unfold bind at 1. unfold LOG at 1, emit at 1.
  unfold bind at 1. unfold ask at 1. rewrite Hnew. rewrite Htype.
  rewrite (vpc_family_member _ Hname).
  unfold bind at 1. unfold _create_vpc_file, _execute.
  unfold bind, emit, ask, lift, ret, record. cbn beta iota. cbn [self trace].
  fold (qemu_img_cmd path (Volume.size volume)). rewrite <- app_assoc. cbn [app].
  destruct (execute h _ true) as [[out err]|e]; reflexivity.
Qed.

(** X24: for a volume without a type at a free path, [_do_create_volume]
    clears the image suffix of [self] and creates the file with the
    inherited routine the configuration selects, qcow2 before sparse and
    sparse before regular, then sets the permissions of the path. *)
Theorem create_untyped_volume h st st1 volume path :
  local_path base volume h st = (Ok path, st1) ->
  path_exists h path = false ->
  Volume.volume_type volume = None ->
  _do_create_volume base volume h st
  = (untyped_creator base (configuration (self st1)) path (Volume.size volume);;
     _set_rw_permissions_for_all base path) h
      {| self := without_suffix (self st1);
         trace := trace st1 ++ [Log DEBUG (Msg "creating new volume at %s" [PyStr path])] |}.
Proof.
  intros Hpath Hnew Htype.
  unfold _do_create_volume. unfold bind at 1. rewrite Hpath.
  cbv zeta. unfold bind at 1. unfold LOG at 1, emit at 1.
  unfold bind at 1. unfold ask at 1. rewrite Hnew. rewrite Htype.
  unfold bind at 1. unfold bind at 1. unfold get_self at 1.
  unfold bind at 1. unfold set_self at 1. cbn [self trace].
  unfold untyped_creator, without_suffix.
  destruct (smbfs_qcow2_volumes _); [reflexivity|].
  destruct (smbfs_sparsed_volumes _); reflexivity.
Qed.

End Base.

Lemma create_refuses_existing_path_witness :
  _do_create_volume Example.bare (Scenario.volume (Some "/a") (Some "vhd"))
    (Scenario.host_with Scenario.stat_ok Scenario.du_ok (Ok tt) ["/mnt/a/volume-1"])
    Scenario.state
  = (Raise (InvalidVolume (Msg "file already exists at %s" [PyStr "/mnt/a/volume-1"])),
     record Scenario.state
       [Log DEBUG (Msg "creating new volume at %s" [PyStr "/mnt/a/volume-1"]);
        Log ERROR (Msg "file already exists at %s" [PyStr "/mnt/a/volume-1"])]).
Proof.
  apply (create_refuses_existing_path Example.bare
           (Scenario.host_with Scenario.stat_ok Scenario.du_ok (Ok tt)
              ["/mnt/a/volume-1"])
           Scenario.state Scenario.state
           (Scenario.volume (Some "/a") (Some "vhd")) "/mnt/a/volume-1");
    reflexivity.
Defined.

Lemma create_vpc_family_volume_witness :
  _do_create_volume Example.bare (Scenario.volume (Some "/a") (Some "vhd"))
    Scenario.sound_host Scenario.state
  = match execute Scenario.sound_host (qemu_img_cmd "/mnt/a/volume-1" 2) true with
    | Ok _ =>
        _set_rw_permissions_for_all Example.bare "/mnt/a/volume-1" Scenario.sound_host
          (record Scenario.state
             [Log DEBUG (Msg "creating new volume at %s" [PyStr "/mnt/a/volume-1"]);
              Execute (qemu_img_cmd "/mnt/a/volume-1" 2) true])
    | Raise e =>
        (Raise e,
         record Scenario.state
           [Log DEBUG (Msg "creating new volume at %s" [PyStr "/mnt/a/volume-1"]);
            Execute (qemu_img_cmd "/mnt/a/volume-1" 2) true])
    end.
Proof.
  apply (create_vpc_family_volume Example.bare Scenario.sound_host
           Scenario.state Scenario.state
           (Scenario.volume (Some "/a") (Some "vhd")) "/mnt/a/volume-1"
           {| Volume.type_name := "vhd" |}).
  - reflexivity.
  - reflexivity.
  - reflexivity.
  - right. left. reflexivity.
Defined.

Lemma create_untyped_volume_witness :
  _do_create_volume Example.bare (Scenario.volume (Some "/a") None)
    Scenario.sound_host Scenario.state
  = (untyped_creator Example.bare (configuration (self Scenario.state))
       "/mnt/a/volume-1" 2;;
     _set_rw_permissions_for_all Example.bare "/mnt/a/volume-1") Scenario.sound_host
      {| self := without_suffix (self Scenario.state);
         trace := trace Scenario.state
                  ++ [Log DEBUG (Msg "creating new volume at %s"
                                     [PyStr "/mnt/a/volume-1"])] |}.
Proof.
  apply (create_untyped_volume Example.bare Scenario.sound_host
           Scenario.state Scenario.state
           (Scenario.volume (Some "/a") None) "/mnt/a/volume-1");
    reflexivity.
Defined.

(** X25: [_create_vpc_file] hands [qemu-img] the size as a decimal integer
    that reads back as the size in GiB times 2^30, and runs that one
    command as root. *)
Theorem create_vpc_file_size_in_bytes h st volume_path volume_size :
  exists arg,
    exec (_create_vpc_file volume_path volume_size) h st
    = record st [Execute ["qemu-img"; "create"; "-f"; "vpc"; volume_path; arg] true] /\
    int_of_str arg = Some (volume_size * 2 ^ 30).
Proof.
  exists (str_int (volume_size * Py.GiB)). split.
  - unfold exec, _create_vpc_file, _execute, bind, emit, ask, lift, ret.
    cbn beta iota. destruct (execute h _ true) as [[out err]|e]; reflexivity.
  - unfold int_of_str, str_int. rewrite NilZero.isi.
    + cbn [option_map]. by rewrite DecimalZ.of_to.
    + destruct (volume_size * Py.GiB) as [|p|p]; try discriminate.
      intros [= E]. by apply (DecimalPos.Unsigned.to_uint_nonnil p).
    + destruct (volume_size * Py.GiB) as [|p|p]; try discriminate.
      intros [= E]. by apply (DecimalPos.Unsigned.to_uint_nonnil p).
Qed.

End CreationMore.

(** ** The flags handed to the mount *)

Module Flags.

Import Smbfs.

Lemma no_space_snoc cur c :
  no_space cur = true -> Py.isspace c = false ->
  no_space (cur +:+ String c EmptyString) = true.
Proof.
  intros Hcur Hc. induction cur as [|a cur IH].
  - change (negb (Py.isspace c) && true = true). by rewrite Hc.
  - change (negb (Py.isspace a) && no_space (cur +:+ String c EmptyString) = true).
    cbn [no_space] in Hcur. apply andb_true_iff in Hcur as [Ha Hcur].
    rewrite Ha. by apply IH.
Qed.

Lemma snoc_nonempty cur c : cur +:+ String c EmptyString <> EmptyString.
Proof. by destruct cur. Qed.

Lemma flush_tokens cur k :
  no_space cur = true -> Forall token k -> Forall token (Py.flush cur k).
Proof.
  intros Hcur Hk. destruct cur as [|a cur]; [done|].
  cbn [Py.flush]. constructor; [|done]. by split.
Qed.

(** [s.split()] gives tokens only. *)
Lemma split_from_tokens s : forall cur,
  no_space cur = true -> Forall token (Py.split_from cur s).
Proof.
  induction s as [|c s IH]; intros cur Hcur; cbn [Py.split_from].
  - by apply flush_tokens.
  - destruct (Py.isspace c) eqn:Hc.
    + apply flush_tokens; [done|]. by apply IH.
    + apply IH. by apply no_space_snoc.
Qed.

(** X26: every flag [_ensure_share_mounted] hands to the mount is a
    non-empty string without whitespace, whatever the options string of
    the share holds; the mount request is the last thing it records. *)
Theorem mount_flags_are_tokens h st s :
  exists mnt_flags,
    exec (_ensure_share_mounted s) h st
    = record st [Log DEBUG (Msg ">>>>%r" [PyDict (shares (self st))]);
                 Log DEBUG (Msg ">>>>%r" [PyStr s]);
                 Mount s mnt_flags] /\
    Forall token mnt_flags.
Proof.
  exists (match shares (self st) !! s with
          | Some (Some options) => Py.split options
          | _ => []
          end).
  split.
  - unfold exec, _ensure_share_mounted, LOG, bind, get_self, emit, ask, lift.
    cbn beta iota. unfold record. cbn [self trace fst snd].
    rewrite <- !app_assoc. reflexivity.
  - destruct (shares (self st) !! s) as [[options|]|]; try constructor.
    by apply split_from_tokens.
Qed.

End Flags.
